(** * Dynamic texture example: the extension's code against its specification

    Shallow embedding of
    [exts/omni.dynamic_texture_example/omni/dynamic_texture_example/extension.py].

    The extension consists of two free functions and one lifecycle object,
    all of which are straight-line sequences of calls into the host
    application (the scene-document API, the UI toolkit, the image library
    and the dynamic-texture API).  The embedding therefore has three layers:

    - the data the host keeps for the extension (a stage of prims keyed by
      path, images, dynamic-texture providers);
    - a reference semantics of each host call on that data, together with an
      oracle [raises] that says which host calls raise: the host is not part
      of the repository, so every theorem is quantified over the oracle;
    - the Python functions themselves, written in a small state-and-exception
      monad that also records the host calls made, statement by statement. *)

From stdpp Require Import gmap strings list fin_maps.
From Stdlib Require Import ZArith.
From Stdlib.Strings Require Import Byte.

#[local] Open Scope Z_scope.
#[local] Open Scope string_scope.
#[local] Open Scope list_scope.

(** ** Data kept by the host *)

(** Values given to scene-document attributes.  The Python source writes the
    coordinates as integer literals, so they are kept as integers. *)
Inductive Value :=
| VPoint3Array (l : list (Z * Z * Z))
| VIntArray (l : list Z)
| VTexCoord2Array (l : list (Z * Z))
| VAsset (s : string)
| VToken (s : string).

(** An attribute: its declared value type, its value once one has been set,
    its interpolation (primvars only) and its connection to an output of
    another prim. *)
Record Attr := {
  attr_type : string;
  attr_value : option Value;
  attr_interpolation : option string;
  attr_connection : option (string * string)
}.

(** A prim: type name, model kind, applied API schemas, attributes and
    relationship targets. *)
Record Prim := {
  typeName : string;
  kind : option string;
  apiSchemas : list string;
  attrs : gmap string Attr;
  rels : gmap string (list string)
}.

(** The scene document: prims keyed by their path. *)
Abbreviation Stage := (gmap string Prim).

(** [omni.ui.TextureFormat]: the source names one variant; the others of the
    host's enumeration are kept by their tag. *)
Inductive TextureFormat :=
| RGBA8_UNORM
| TextureFormat_other (tag : N).

(** A [PIL.Image.Image]. *)
Record Image := {
  mode : string;
  width : Z;
  height : Z;
  data : list byte
}.

(** A [ui.DynamicTextureProvider]: the name it is registered under and the
    bytes, resolution and format last given to it. *)
Record DynamicTextureProvider := {
  dtp_name : string;
  dtp_data : option (list Z * list Z * TextureFormat)
}.

(** A [ui.Window]. *)
Record Window := {
  win_title : string;
  win_width : Z;
  win_height : Z
}.

(** ** Host calls *)

Inductive Call :=
(* omni.usd *)
| GetContext
| GetStage
(* pxr *)
| RemovePrim (path : string)
| Define (ty path : string)
| SetKind (path k : string)
| CreateAttr (path name ty : string) (v : Value)
| CreatePrimvar (path name ty interpolation : string)
| CreateInput (path name ty : string)
| AttrSet (path name : string) (v : Value)
| SetSourceAsset (path asset sourceType : string)
| SetSourceAssetSubIdentifier (path sub sourceType : string)
| CreateSurfaceOutput (path : string)
| ConnectToSource (path output source sourceName : string)
| ApplyAPI (path api : string)
| Bind (path material : string)
(* PIL *)
| ImageOpen (file md : string)
| ImageConvert (md : string)
| ImageToBytes
(* omni.ui *)
| NewDynamicTextureProvider (name : string)
| SetBytesData (name : string) (bytes : list Z) (resolution : list Z)
    (format : TextureFormat)
| NewWindow (title : string) (w h : Z).

(** What a run leaves behind for an observer: the host calls it attempted
    and the assignments it made to [self._texture]. *)
Inductive Event :=
| Host (c : Call)
| StoreTexture (t : option DynamicTextureProvider).

Inductive Exn :=
| UnboundLocalError (name : string)
| HostError (msg : string).

(** The host, as far as the extension can tell. *)
Record HostEnv := {
  (** the exception a call raises on a given document, if it raises *)
  raises : Stage -> Call -> option Exn;
  (** [pathlib.Path(__file__).parent.resolve()] *)
  module_dir : string;
  (** the image [Image.open] yields for a file it opens *)
  pil_open : string -> Image;
  (** the image [Image.convert] yields *)
  pil_convert : string -> Image -> Image
}.

(** ** Reference semantics of the scene-document calls *)

Definition new_prim : Prim :=
  {| typeName := ""; kind := None; apiSchemas := []; attrs := ∅; rels := ∅ |}.

Definition new_attr (ty : string) : Attr :=
  {| attr_type := ty; attr_value := None; attr_interpolation := None;
     attr_connection := None |}.

Definition set_typeName (ty : string) (p : Prim) : Prim :=
  {| typeName := ty; kind := kind p; apiSchemas := apiSchemas p;
     attrs := attrs p; rels := rels p |}.

Definition set_kind (k : string) (p : Prim) : Prim :=
  {| typeName := typeName p; kind := Some k; apiSchemas := apiSchemas p;
     attrs := attrs p; rels := rels p |}.

(** Applying an API schema that is already applied changes nothing. *)
Definition add_api (api : string) (p : Prim) : Prim :=
  {| typeName := typeName p; kind := kind p;
     apiSchemas := if bool_decide (api ∈ apiSchemas p)
                   then apiSchemas p
                   else apiSchemas p ++ [api];
     attrs := attrs p; rels := rels p |}.

Definition set_rel (name : string) (targets : list string) (p : Prim) : Prim :=
  {| typeName := typeName p; kind := kind p; apiSchemas := apiSchemas p;
     attrs := attrs p; rels := <[name := targets]> (rels p) |}.

(** Edit attribute [name] of a prim, creating it with type [ty] when the prim
    does not have it yet. *)
Definition edit_attr (name ty : string) (f : Attr -> Attr) (p : Prim) : Prim :=
  {| typeName := typeName p; kind := kind p; apiSchemas := apiSchemas p;
     attrs := <[name := f (default (new_attr ty) (attrs p !! name))]> (attrs p);
     rels := rels p |}.

Definition with_value (v : Value) (a : Attr) : Attr :=
  {| attr_type := attr_type a; attr_value := Some v;
     attr_interpolation := attr_interpolation a;
     attr_connection := attr_connection a |}.

Definition with_type (ty : string) (a : Attr) : Attr :=
  {| attr_type := ty; attr_value := attr_value a;
     attr_interpolation := attr_interpolation a;
     attr_connection := attr_connection a |}.

Definition with_interpolation (i : string) (a : Attr) : Attr :=
  {| attr_type := attr_type a; attr_value := attr_value a;
     attr_interpolation := Some i;
     attr_connection := attr_connection a |}.

Definition with_connection (src out : string) (a : Attr) : Attr :=
  {| attr_type := attr_type a; attr_value := attr_value a;
     attr_interpolation := attr_interpolation a;
     attr_connection := Some (src, out) |}.

(** [k] is [p] or lies below it in the namespace. *)
Definition in_subtree (p k : string) : bool :=
  String.eqb k p || String.prefix (p +:+ "/") k.

(** The effect of a call on the document when it does not raise.  A call that
    addresses a prim leaves the document alone when there is no prim at that
    path; [Define] creates the prim or retypes the one that is there;
    [RemovePrim] drops the prim and everything below it, and is a no-op when
    nothing is there. *)
Definition usd_step (c : Call) (st : Stage) : Stage :=
  match c with
  | RemovePrim p => filter (λ kv, in_subtree p kv.1 = false) st
  | Define ty p =>
      <[p := set_typeName ty (default new_prim (st !! p))]> st
  | SetKind p k => alter (set_kind k) p st
  | CreateAttr p name ty v =>
      alter (edit_attr name ty (λ a, with_value v (with_type ty a))) p st
  | CreatePrimvar p name ty i =>
      alter (edit_attr ("primvars:" +:+ name) ty
               (λ a, with_interpolation i (with_type ty a))) p st
  | CreateInput p name ty =>
      alter (edit_attr ("inputs:" +:+ name) ty (with_type ty)) p st
  | AttrSet p name v => alter (edit_attr name "" (with_value v)) p st
  | SetSourceAsset p asset sourceType =>
      alter (λ x,
        edit_attr ("info:" +:+ sourceType +:+ ":sourceAsset") "asset"
          (with_value (VAsset asset))
          (edit_attr "info:implementationSource" "token"
             (with_value (VToken "sourceAsset")) x)) p st
  | SetSourceAssetSubIdentifier p sub sourceType =>
      alter (λ x,
        edit_attr ("info:" +:+ sourceType +:+ ":sourceAsset:subIdentifier")
          "token" (with_value (VToken sub))
          (edit_attr "info:implementationSource" "token"
             (with_value (VToken "sourceAsset")) x)) p st
  | CreateSurfaceOutput p =>
      alter (edit_attr "outputs:surface" "token" (with_type "token")) p st
  | ConnectToSource p output source sourceName =>
      alter (edit_attr output ""
               (with_connection source ("outputs:" +:+ sourceName))) p st
  | ApplyAPI p api => alter (add_api api) p st
  | Bind p material => alter (set_rel "material:binding" [material]) p st
  | _ => st
  end.

(** ** The monad the Python code runs in *)

(** The extension object ([self]). *)
Record Ext := {
  _texture : option DynamicTextureProvider;
  _window : option Window
}.

Record State := {
  ext : Ext;
  stage : Stage
}.

Inductive Result (A : Type) :=
| Ok (a : A)
| Raise (e : Exn).
Arguments Ok {A} a.
Arguments Raise {A} e.

(** A computation: from a state to a result, the state it leaves (Python does
    not roll state back when an exception is raised) and the events it
    produced, oldest first. *)
Definition M (A : Type) : Type := State -> Result A * State * list Event.

Definition ret {A} (a : A) : M A := λ s, (Ok a, s, []).

Definition raise {A} (e : Exn) : M A := λ s, (Raise e, s, []).

Definition bind {A B} (m : M A) (k : A -> M B) : M B := λ s,
  match m s with
  | (Ok a, s1, t1) =>
      match k a s1 with
      | (r, s2, t2) => (r, s2, t1 ++ t2)
      end
  | (Raise e, s1, t1) => (Raise e, s1, t1)
  end.

(** [try: body except: pass] *)
Definition try_except_pass (body : M unit) : M unit := λ s,
  match body s with
  | (Ok a, s1, t1) => (Ok a, s1, t1)
  | (Raise _, s1, t1) => (Ok (), s1, t1)
  end.

#[global] Instance M_ret : MRet M := @ret.
#[global] Instance M_bind : MBind M := λ A B k m, bind m k.

Section Extension.

Context (host : HostEnv).

(** A host call with result [a]: recorded, then either the exception the
    host raises for it or its effect on the document. *)
Definition call {A} (c : Call) (a : A) : M A := λ s,
  match raises host (stage s) c with
  | Some e => (Raise e, s, [Host c])
  | None => (Ok a, {| ext := ext s; stage := usd_step c (stage s) |}, [Host c])
  end.

(** [self._texture = t] *)
Definition store_texture (t : option DynamicTextureProvider) : M unit := λ s,
  (Ok (), {| ext := {| _texture := t; _window := _window (ext s) |};
             stage := stage s |}, [StoreTexture t]).

(** [self._window = w] *)
Definition store_window (w : Window) : M unit := λ s,
  (Ok (), {| ext := {| _texture := _texture (ext s); _window := Some w |};
             stage := stage s |}, []).

(** ** extension.py *)

(** A schema object ([UsdGeom.Mesh], [UsdShade.Material], ...) is a view on
    the prim at a path; it is represented by that path, and an attribute,
    primvar, input or output object by the name of the attribute.  Re-wrapping
    a prim in another schema ([PrimvarsAPI(billboard)], [ConnectableAPI()],
    [GetPrim()]) does not touch the document and is not recorded.  A method
    that mutates the object it is called on ([set_bytes_data]) yields the
    mutated object. *)

Definition create_textured_plane_prim (prim_path texture_name : string)
  : M string :=
  billboard ← call (Define "Mesh" (prim_path +:+ "/Mesh"))
                    (prim_path +:+ "/Mesh");
  call (CreateAttr billboard "points" "point3f[]"
          (VPoint3Array [(-430, -145, 0); (430, -145, 0);
                         (430, 145, 0); (-430, 145, 0)])) ();;
  call (CreateAttr billboard "faceVertexCounts" "int[]" (VIntArray [4])) ();;
  call (CreateAttr billboard "faceVertexIndices" "int[]"
          (VIntArray [0; 1; 2; 3])) ();;
  call (CreateAttr billboard "extent" "float3[]"
          (VPoint3Array [(-430, -145, 0); (430, 145, 0)])) ();;
  texCoords ← call (CreatePrimvar billboard "st" "texCoord2f[]" "varying")
                    "primvars:st";
  call (AttrSet billboard texCoords
          (VTexCoord2Array [(0, 0); (1, 0); (1, 1); (0, 1)])) ();;

  let material_path := prim_path +:+ "/Material" in
  material ← call (Define "Material" material_path) material_path;
  shader ← call (Define "Shader" (material_path +:+ "/Shader"))
                 (material_path +:+ "/Shader");
  call (SetSourceAsset shader "OmniPBR.mdl" "mdl") ();;
  call (SetSourceAssetSubIdentifier shader "OmniPBR" "mdl") ();;
  call (CreateAttr shader "info:id" "token" (VToken "OmniPBR")) ();;
  input ← call (CreateInput shader "diffuse_texture" "asset")
                "inputs:diffuse_texture";
  call (AttrSet shader input (VAsset ("dynamic://" +:+ texture_name))) ();;
  output ← call (CreateSurfaceOutput material) "outputs:surface";
  call (ConnectToSource material output shader "surface") ();;
  call (ApplyAPI billboard "MaterialBindingAPI") ();;
  call (Bind billboard material) ();;
  ret billboard.

Definition byte_to_int (b : byte) : Z := Z.of_N (Byte.to_N b).

Definition create_dynamic_texture (texture_name : string) (bytes : list byte)
    (resolution : Z * Z) (format : TextureFormat)
  : M DynamicTextureProvider :=
  let bytes_list := map byte_to_int bytes in
  dtp ← call (NewDynamicTextureProvider texture_name)
              {| dtp_name := texture_name; dtp_data := None |};
  dtp ← call (SetBytesData (dtp_name dtp) bytes_list
                 [resolution.1; resolution.2] format)
              {| dtp_name := dtp_name dtp;
                 dtp_data := Some (bytes_list, [resolution.1; resolution.2],
                                   format) |};
  ret dtp.

Definition on_click_create : M unit :=
  usd_context ← call GetContext ();
  stage ← call GetStage ();
  let name := "Thing" in
  let image_name := name in
  let prim_path := "/World/" +:+ name in
  try_except_pass (
    call (RemovePrim prim_path) ();;
    store_texture None);;
  model_root ← call (Define "Xform" prim_path) prim_path;
  call (SetKind model_root "component") ();;
  create_textured_plane_prim prim_path image_name;;
  let dir := module_dir host in
  let image_path := dir +:+ "/cat.jpg" in
  image ← call (ImageOpen image_path "r") (pil_open host image_path);
  image ← call (ImageConvert "RGBA") (pil_convert host "RGBA" image);
  image_bytes ← call ImageToBytes (data image);
  let image_resolution := (width image, height image) in
  let image_format := RGBA8_UNORM in
  t ← create_dynamic_texture image_name image_bytes image_resolution
         image_format;
  store_texture (Some t).

(** [on_startup] names [on_click_create] in the button's constructor before
    the nested [def on_click_create] that binds it has run: the name is a
    local of [on_startup], so reading it raises and the button is not
    created. *)
Definition on_startup (ext_id : string) : M unit :=
  store_texture None;;
  w ← call (NewWindow "Create Dynamic Texture Provider Example" 300 300)
         {| win_title := "Create Dynamic Texture Provider Example";
            win_width := 300; win_height := 300 |};
  store_window w;;
  raise (UnboundLocalError "on_click_create").

Definition on_shutdown : M unit :=
  store_texture None.

(** ** Vocabulary of the statements *)

(** The fixed target of the handler and the prims it creates. *)
Definition target : string := "/World/Thing".
Definition target_mesh : string := "/World/Thing/Mesh".
Definition target_material : string := "/World/Thing/Material".
Definition target_shader : string := "/World/Thing/Material/Shader".

(** The document after a list of calls none of which raises. *)
Definition usd_steps (cs : list Call) (st : Stage) : Stage :=
  foldl (λ st c, usd_step c st) st cs.

(** A straight-line sequence of host calls: the exception of the first call
    that raises (if any), the document at that point and the calls
    attempted. *)
Fixpoint exec_calls (cs : list Call) (st : Stage)
  : option Exn * Stage * list Call :=
  match cs with
  | [] => (None, st, [])
  | c :: cs =>
      match raises host st c with
      | Some e => (Some e, st, [c])
      | None =>
          match exec_calls cs (usd_step c st) with
          | (r, st', t) => (r, st', c :: t)
          end
      end
  end.

(** The computation that makes the calls [cs] and, when none raises,
    continues as [k]. *)
Definition exec_then {A} (cs : list Call) (k : M A) : M A := λ s,
  match exec_calls cs (stage s) with
  | (Some e, st, t) => (Raise e, {| ext := ext s; stage := st |}, Host <$> t)
  | (None, st, t) =>
      match k {| ext := ext s; stage := st |} with
      | (r, s', t') => (r, s', (Host <$> t) ++ t')
      end
  end.

(** The image the handler uploads and the provider it builds from it. *)
Definition click_image : Image :=
  pil_convert host "RGBA" (pil_open host (module_dir host +:+ "/cat.jpg")).

Definition click_provider : DynamicTextureProvider :=
  {| dtp_name := "Thing";
     dtp_data := Some (map byte_to_int (data click_image),
                       [width click_image; height click_image],
                       RGBA8_UNORM) |}.

(** The host calls of the handler that load, decode and upload the image. *)
Definition click_upload : list Call :=
  [ ImageOpen (module_dir host +:+ "/cat.jpg") "r";
    ImageConvert "RGBA";
    ImageToBytes;
    NewDynamicTextureProvider "Thing";
    SetBytesData "Thing" (map byte_to_int (data click_image))
      [width click_image; height click_image] RGBA8_UNORM ].

(** Whether the removal call on this document returns (rather than raises),
    and what the removal step of the handler leaves in the trace. *)
Definition removal_returns (st : Stage) : bool :=
  match raises host st (RemovePrim target) with
  | None => true
  | Some _ => false
  end.

Definition removal_events (returned : bool) : list Event :=
  Host (RemovePrim target) ::
  (if returned then [StoreTexture None] else []).

(** The state the removal step of the handler leaves. *)
Definition after_removal (s : State) : State :=
  if removal_returns (stage s)
  then {| ext := {| _texture := None; _window := _window (ext s) |};
          stage := usd_step (RemovePrim target) (stage s) |}
  else s.

End Extension.

(** The host calls of [create_textured_plane_prim], in program order. *)
Definition plane_calls (prim_path texture_name : string) : list Call :=
  let mesh := prim_path +:+ "/Mesh" in
  let material := prim_path +:+ "/Material" in
  let shader := material +:+ "/Shader" in
  [ Define "Mesh" mesh;
    CreateAttr mesh "points" "point3f[]"
      (VPoint3Array [(-430, -145, 0); (430, -145, 0);
                     (430, 145, 0); (-430, 145, 0)]);
    CreateAttr mesh "faceVertexCounts" "int[]" (VIntArray [4]);
    CreateAttr mesh "faceVertexIndices" "int[]" (VIntArray [0; 1; 2; 3]);
    CreateAttr mesh "extent" "float3[]"
      (VPoint3Array [(-430, -145, 0); (430, 145, 0)]);
    CreatePrimvar mesh "st" "texCoord2f[]" "varying";
    AttrSet mesh "primvars:st"
      (VTexCoord2Array [(0, 0); (1, 0); (1, 1); (0, 1)]);
    Define "Material" material;
    Define "Shader" shader;
    SetSourceAsset shader "OmniPBR.mdl" "mdl";
    SetSourceAssetSubIdentifier shader "OmniPBR" "mdl";
    CreateAttr shader "info:id" "token" (VToken "OmniPBR");
    CreateInput shader "diffuse_texture" "asset";
    AttrSet shader "inputs:diffuse_texture"
      (VAsset ("dynamic://" +:+ texture_name));
    CreateSurfaceOutput material;
    ConnectToSource material "outputs:surface" shader "surface";
    ApplyAPI mesh "MaterialBindingAPI";
    Bind mesh material ].

(** The host calls of the handler before its removal step, the two that
    create the root prim, and all those that write the document. *)
Definition click_head : list Call := [GetContext; GetStage].

Definition click_root : list Call :=
  [Define "Xform" target; SetKind target "component"].

Definition click_build : list Call :=
  click_root ++ plane_calls target "Thing".

(** The value of attribute [a] of the prim at [p]. *)
Definition attr_of (st : Stage) (p a : string) : option Value :=
  prim ← st !! p; attr ← attrs prim !! a; attr_value attr.

(** The type name of the prim at [p]. *)
Definition type_of (st : Stage) (p : string) : option string :=
  typeName <$> st !! p.

(** The model kind of the prim at [p]. *)
Definition kind_of (st : Stage) (p : string) : option string :=
  prim ← st !! p; kind prim.

(** What a call does to the entry of path [k], given that entry: every call
    acts on the document entry by entry. *)
Definition prim_step (c : Call) (k : string) (o : option Prim) : option Prim :=
  let at_path (p : string) (f : Prim -> Prim) :=
    if String.eqb p k then f <$> o else o in
  match c with
  | RemovePrim p => if in_subtree p k then None else o
  | Define ty p =>
      if String.eqb p k then Some (set_typeName ty (default new_prim o)) else o
  | SetKind p kd => at_path p (set_kind kd)
  | CreateAttr p name ty v =>
      at_path p (edit_attr name ty (λ a, with_value v (with_type ty a)))
  | CreatePrimvar p name ty i =>
      at_path p (edit_attr ("primvars:" +:+ name) ty
                   (λ a, with_interpolation i (with_type ty a)))
  | CreateInput p name ty =>
      at_path p (edit_attr ("inputs:" +:+ name) ty (with_type ty))
  | AttrSet p name v => at_path p (edit_attr name "" (with_value v))
  | SetSourceAsset p asset sourceType =>
      at_path p (λ x,
        edit_attr ("info:" +:+ sourceType +:+ ":sourceAsset") "asset"
          (with_value (VAsset asset))
          (edit_attr "info:implementationSource" "token"
             (with_value (VToken "sourceAsset")) x))
  | SetSourceAssetSubIdentifier p sub sourceType =>
      at_path p (λ x,
        edit_attr ("info:" +:+ sourceType +:+ ":sourceAsset:subIdentifier")
          "token" (with_value (VToken sub))
          (edit_attr "info:implementationSource" "token"
             (with_value (VToken "sourceAsset")) x))
  | CreateSurfaceOutput p =>
      at_path p (edit_attr "outputs:surface" "token" (with_type "token"))
  | ConnectToSource p output source sourceName =>
      at_path p (edit_attr output ""
                   (with_connection source ("outputs:" +:+ sourceName)))
  | ApplyAPI p api => at_path p (add_api api)
  | Bind p material => at_path p (set_rel "material:binding" [material])
  | _ => o
  end.

Definition prim_steps (cs : list Call) (k : string) (o : option Prim)
  : option Prim :=
  foldl (λ o c, prim_step c k o) o cs.

(** Whether a call confines what it writes to the subtree of [root]. *)
Definition writes_under (root : string) (c : Call) : bool :=
  match c with
  | RemovePrim _ => false
  | Define _ p | SetKind p _ | CreateAttr p _ _ _ | CreatePrimvar p _ _ _
  | CreateInput p _ _ | AttrSet p _ _ | SetSourceAsset p _ _
  | SetSourceAssetSubIdentifier p _ _ | CreateSurfaceOutput p
  | ConnectToSource p _ _ _ | ApplyAPI p _ | Bind p _ => in_subtree root p
  | _ => true
  end.

(** The subtree a click builds on a document that has nothing at the
    target. *)
Definition fresh_plane : Stage := usd_steps click_build ∅.

(** The steps in [steps] occur in the trace [t], in that order. *)
Definition performs_in_order (steps t : list Event) : Prop :=
  sublist steps t.

(** The steps of a click that the specification lists, given whether the
    removal call returned: the removal step, the plane, the image, the
    upload, the new handle. *)
Definition performed_click_steps (host : HostEnv) (returned : bool)
  : list Event :=
  removal_events returned ++
  (Host <$> plane_calls target "Thing") ++
  (Host <$> click_upload host) ++
  [StoreTexture (Some (click_provider host))].

(** The steps as the specification lists them: the stored handle is cleared
    in every click. *)
Definition claimed_click_steps (host : HostEnv) : list Event :=
  performed_click_steps host true.

(** Calls that load, decode or upload the image. *)
Definition image_or_upload (c : Call) : bool :=
  match c with
  | ImageOpen _ _ | ImageConvert _ | ImageToBytes
  | NewDynamicTextureProvider _ | SetBytesData _ _ _ _ => true
  | _ => false
  end.

(** ** Hosts and states to run the model on *)

Definition cat : Image :=
  {| mode := "RGB"; width := 2; height := 1;
     data := [x10; x20; x30; x40; x50; x60] |}.

(** [convert('RGBA')] of a three-channel image: an opaque alpha byte after
    every three bytes. *)
Fixpoint add_alpha (bs : list byte) : list byte :=
  match bs with
  | r :: g :: b :: rest => r :: g :: b :: xff :: add_alpha rest
  | _ => []
  end.

Definition host_ok : HostEnv :=
  {| raises := λ _ _, None;
     module_dir := "/exts/omni/dynamic_texture_example";
     pil_open := λ _, cat;
     pil_convert := λ m i,
       {| mode := m; width := width i; height := height i;
          data := add_alpha (data i) |} |}.

(** A host on which removing a prim raises. *)
Definition host_remove_raises : HostEnv :=
  {| raises := λ _ c,
       match c with
       | RemovePrim _ => Some (HostError "RemovePrim")
       | _ => None
       end;
     module_dir := module_dir host_ok;
     pil_open := pil_open host_ok;
     pil_convert := pil_convert host_ok |}.

(** A host on which removing a prim raises and the image file is missing. *)
Definition host_remove_and_open_raise : HostEnv :=
  {| raises := λ _ c,
       match c with
       | RemovePrim _ => Some (HostError "RemovePrim")
       | ImageOpen _ _ => Some (HostError "FileNotFoundError")
       | _ => None
       end;
     module_dir := module_dir host_ok;
     pil_open := pil_open host_ok;
     pil_convert := pil_convert host_ok |}.

(** A host on which the image file is missing. *)
Definition host_open_raises : HostEnv :=
  {| raises := λ _ c,
       match c with
       | ImageOpen _ _ => Some (HostError "FileNotFoundError")
       | _ => None
       end;
     module_dir := module_dir host_ok;
     pil_open := pil_open host_ok;
     pil_convert := pil_convert host_ok |}.

Definition old_texture : DynamicTextureProvider :=
  {| dtp_name := "Thing"; dtp_data := Some ([1; 2; 3; 4], [1; 1], RGBA8_UNORM) |}.

(** The extension right after activation, on an empty document. *)
Definition state_fresh : State :=
  {| ext := {| _texture := None; _window := None |}; stage := ∅ |}.

(** The extension holding a texture from an earlier click, on a document from
    which the prims have since been deleted. *)
Definition state_holding : State :=
  {| ext := {| _texture := Some old_texture; _window := None |}; stage := ∅ |}.

(** ** Further observations of the document *)

(** The targets of relationship [r] of the prim at [p]. *)
Definition rel_of (st : Stage) (p r : string) : option (list string) :=
  prim ← st !! p; rels prim !! r.

(** The API schemas applied to the prim at [p]. *)
Definition apis_of (st : Stage) (p : string) : option (list string) :=
  apiSchemas <$> st !! p.

(** The source that attribute [a] of the prim at [p] is connected to. *)
Definition connection_of (st : Stage) (p a : string)
  : option (string * string) :=
  prim ← st !! p; attr ← attrs prim !! a; attr_connection attr.

(** The interpolation of attribute [a] of the prim at [p]. *)
Definition interpolation_of (st : Stage) (p a : string) : option string :=
  prim ← st !! p; attr ← attrs prim !! a; attr_interpolation attr.



(** The axis-aligned box around a list of points: its least and its greatest
    corner. *)
Definition point_min (a b : Z * Z * Z) : Z * Z * Z :=
  (Z.min a.1.1 b.1.1, Z.min a.1.2 b.1.2, Z.min a.2 b.2).

Definition point_max (a b : Z * Z * Z) : Z * Z * Z :=
  (Z.max a.1.1 b.1.1, Z.max a.1.2 b.1.2, Z.max a.2 b.2).

Definition bounding_box (points : list (Z * Z * Z)) : list (Z * Z * Z) :=
  match points with
  | [] => []
  | p :: ps => [foldl point_min p ps; foldl point_max p ps]
  end.

(** A mesh topology that fits its points: every face has at least three
    vertices, the face sizes add up to the number of indices, every index
    names a point, and there is one texture coordinate per point. *)
Definition mesh_well_formed (points : list (Z * Z * Z))
    (counts indices : list Z) (uvs : list (Z * Z)) : bool :=
  forallb (λ n, (3 <=? n)%Z) counts &&
  (foldr Z.add 0 counts =? Z.of_nat (length indices))%Z &&
  forallb (λ i, (0 <=? i)%Z && (i <? Z.of_nat (length points))%Z) indices &&
  (length uvs =? length points)%nat.

(** The whole trace of a completed click, given whether its removal call
    returned. *)
Definition click_trace (host : HostEnv) (returned : bool) : list Event :=
  (Host <$> click_head) ++
  removal_events returned ++
  (Host <$> click_build ++ click_upload host) ++
  [StoreTexture (Some (click_provider host))].

(** A document with a camera beside the target, and under the target a mesh
    and a prim left over from an earlier session. *)
Definition stage_with_scene : Stage :=
  {[ "/World/Camera" :=
       {| typeName := "Camera"; kind := None; apiSchemas := [];
          attrs := {[ "focalLength" := with_value (VIntArray [50])
                                         (new_attr "float") ]};
          rels := ∅ |};
     "/World/Thing/Mesh" :=
       {| typeName := "Mesh"; kind := None; apiSchemas := [];
          attrs := {[ "doubleSided" := with_value (VToken "true")
                                         (new_attr "bool") ]};
          rels := ∅ |};
     "/World/Thing/Old" := new_prim ]}.

Definition state_with_scene : State :=
  {| ext := {| _texture := Some old_texture; _window := None |};
     stage := stage_with_scene |}.

(** A host on which materials cannot be defined. *)
Definition host_material_raises : HostEnv :=
  {| raises := λ _ c,
       match c with
       | Define "Material" _ => Some (HostError "Material.Define")
       | _ => None
       end;
     module_dir := module_dir host_ok;
     pil_open := pil_open host_ok;
     pil_convert := pil_convert host_ok |}.

(** * Properties *)

#[local] Arguments usd_step : simpl never.

(** ** The document, entry by entry *)

Lemma usd_step_lookup (c : Call) (st : Stage) (k : string) :
  usd_step c st !! k = prim_step c k (st !! k).
Proof.
  destruct c; unfold usd_step, prim_step; try reflexivity;
    try (rewrite lookup_alter; destruct (String.eqb_spec path k) as [->|Hne];
         [rewrite decide_True by done | rewrite decide_False by done];
         reflexivity).
  - rewrite map_lookup_filter. cbn [fst].
    destruct (st !! k) as [x|]; cbn; [|by destruct (in_subtree path k)].
    destruct (in_subtree path k); by rewrite ?option_guard_True,
      ?option_guard_False by done.
  - rewrite lookup_insert. destruct (String.eqb_spec path k) as [->|Hne];
      [rewrite decide_True by done | rewrite decide_False by done];
      reflexivity.
Qed.

Lemma usd_steps_lookup (cs : list Call) (st : Stage) (k : string) :
  usd_steps cs st !! k = prim_steps cs k (st !! k).
Proof.
  unfold usd_steps, prim_steps. revert st.
  induction cs as [|c cs IH]; intros st; cbn; [done|].
  by rewrite IH, usd_step_lookup.
Qed.

Lemma usd_steps_app (a b : list Call) (st : Stage) :
  usd_steps (a ++ b) st = usd_steps b (usd_steps a st).
Proof. unfold usd_steps. apply foldl_app. Qed.

(** ** Strings and the evaluation of a chain of calls at one path *)

Lemma append_assoc (a b c : string) : (a +:+ b) +:+ c = a +:+ (b +:+ c).
Proof.
  induction a as [|x a IH]; [done|].
  change (String x ((a +:+ b) +:+ c) = String x (a +:+ b +:+ c)).
  by rewrite IH.
Qed.

Lemma eqb_append (p a b : string) :
  String.eqb (p +:+ a) (p +:+ b) = String.eqb a b.
Proof.
  destruct (String.eqb_spec a b) as [->|Hne]; [apply String.eqb_refl|].
  apply String.eqb_neq. by intros ?%(inj (String.append p)).
Qed.

Lemma prim_steps_cons (c : Call) (cs : list Call) (k : string)
    (o : option Prim) :
  prim_steps (c :: cs) k o = prim_steps cs k (prim_step c k o).
Proof. reflexivity. Qed.

Lemma prim_steps_nil (k : string) (o : option Prim) : prim_steps [] k o = o.
Proof. reflexivity. Qed.

Lemma attrs_edit_attr (n ty a : string) (f : Attr -> Attr) (x : Prim) :
  attrs (edit_attr n ty f x) !! a =
    if String.eqb n a
    then Some (f (default (new_attr ty) (attrs x !! n)))
    else attrs x !! a.
Proof.
  unfold edit_attr; cbn [attrs]. rewrite lookup_insert.
  destruct (String.eqb_spec n a) as [->|Hne];
    [by rewrite decide_True | by rewrite decide_False].
Qed.

(** Decide the comparisons of paths and names that occur in a goal. *)
Ltac eval_eqb :=
  rewrite ?eqb_append;
  repeat match goal with
         | |- context [String.eqb ?a ?b] =>
             let v := eval vm_compute in (String.eqb a b) in
             change (String.eqb a b) with v
         end;
  cbv iota.

(** Run the first call of a chain on the entry under consideration. *)
Ltac prim_step_1 :=
  rewrite prim_steps_cons;
  match goal with
  | |- context [prim_step ?c ?k ?o] =>
      let e := eval cbv beta iota zeta delta [prim_step] in (prim_step c k o) in
      change (prim_step c k o) with e
  end;
  eval_eqb.

Ltac prim_steps_eval :=
  repeat prim_step_1; rewrite ?prim_steps_nil;
  cbn [fmap option_fmap option_map mbind option_bind].

(** Read an attribute of a prim given as a chain of edits. *)
Ltac attr_eval :=
  repeat first
    [ rewrite attrs_edit_attr; eval_eqb
    | progress cbn [attrs set_rel add_api set_kind set_typeName] ];
  cbn [mbind option_bind attr_value with_value with_type with_interpolation
       with_connection].

(** ** What [create_textured_plane_prim] leaves in the document *)

Lemma plane_shader (prim_path texture_name : string) (st : Stage) :
  let st' := usd_steps (plane_calls prim_path texture_name) st in
  type_of st' (prim_path +:+ "/Material/Shader") = Some "Shader" ∧
  attr_of st' (prim_path +:+ "/Material/Shader") "inputs:diffuse_texture"
    = Some (VAsset ("dynamic://" +:+ texture_name)).
Proof.
  cbv zeta. unfold type_of, attr_of. rewrite !usd_steps_lookup.
  unfold plane_calls. cbv zeta. rewrite !append_assoc.
  change ("/Material" +:+ "/Shader") with "/Material/Shader".
  split; prim_steps_eval; [done|]. by attr_eval.
Qed.

Lemma plane_mesh (texture_name : string) (st : Stage) :
  let st' := usd_steps (plane_calls target texture_name) st in
  type_of st' target_mesh = Some "Mesh" ∧
  attr_of st' target_mesh "points"
    = Some (VPoint3Array [(-430, -145, 0); (430, -145, 0);
                          (430, 145, 0); (-430, 145, 0)]) ∧
  attr_of st' target_mesh "faceVertexCounts" = Some (VIntArray [4]) ∧
  attr_of st' target_mesh "faceVertexIndices" = Some (VIntArray [0; 1; 2; 3]) ∧
  attr_of st' target_mesh "primvars:st"
    = Some (VTexCoord2Array [(0, 0); (1, 0); (1, 1); (0, 1)]).
Proof.
  cbv zeta. unfold type_of, attr_of. rewrite !usd_steps_lookup.
  unfold plane_calls, target, target_mesh. cbv zeta.
  repeat split; prim_steps_eval; by attr_eval.
Qed.

Section Runs.

Context (host : HostEnv).

(** ** Straight-line sequences of host calls *)

Lemma exec_calls_app (a b : list Call) (st : Stage) :
  exec_calls host (a ++ b) st =
    match exec_calls host a st with
    | (Some e, st', t) => (Some e, st', t)
    | (None, st', t) =>
        match exec_calls host b st' with
        | (r, st'', t') => (r, st'', t ++ t')
        end
    end.
Proof.
  revert st. induction a as [|c a IH]; intros st; cbn.
  - by destruct (exec_calls host b st) as [[r st'] t].
  - destruct (raises host st c); [done|]. rewrite IH.
    destruct (exec_calls host a (usd_step c st)) as [[[e|] st'] t]; [done|].
    by destruct (exec_calls host b st') as [[r st''] t'].
Qed.

Lemma exec_calls_None (cs : list Call) (st st' : Stage) (t : list Call) :
  exec_calls host cs st = (None, st', t) ->
  t = cs ∧ st' = usd_steps cs st.
Proof.
  revert st st' t. induction cs as [|c cs IH]; intros st st' t; cbn.
  - by intros [= <- <-].
  - destruct (raises host st c); [done|].
    destruct (exec_calls host cs (usd_step c st)) as [[r st1] t1] eqn:E.
    intros [= -> <- <-]. by destruct (IH _ _ _ E) as [-> ->].
Qed.

Lemma exec_calls_Some (cs : list Call) (st st' : Stage) (t : list Call)
    (e : Exn) :
  exec_calls host cs st = (Some e, st', t) ->
  ∃ pre c post,
    cs = pre ++ c :: post ∧ t = pre ++ [c] ∧ st' = usd_steps pre st ∧
    raises host st' c = Some e.
Proof.
  revert st st' t. induction cs as [|c cs IH]; intros st st' t; cbn; [done|].
  destruct (raises host st c) as [e'|] eqn:R.
  - intros [= -> <- <-]. by exists [], c, cs.
  - destruct (exec_calls host cs (usd_step c st)) as [[r st1] t1] eqn:E.
    intros [= -> <- <-].
    destruct (IH _ _ _ E) as (pre & c' & post & -> & -> & -> & R').
    by exists (c :: pre), c', post.
Qed.

(** When the host accepts every call of the sequence, all of them are
    made. *)
Lemma exec_calls_accepted (cs : list Call) (st : Stage) :
  (∀ st c, c ∈ cs -> raises host st c = None) ->
  exec_calls host cs st = (None, usd_steps cs st, cs).
Proof.
  revert st. induction cs as [|c cs IH]; intros st Q; cbn; [done|].
  rewrite Q by left. rewrite IH; [done|]. intros st' c' ?. apply Q. by right.
Qed.

Lemma exec_calls_cons (c : Call) (cs : list Call) (st : Stage) :
  exec_calls host (c :: cs) st =
    match raises host st c with
    | Some e => (Some e, st, [c])
    | None =>
        match exec_calls host cs (usd_step c st) with
        | (r, st', t) => (r, st', c :: t)
        end
    end.
Proof. reflexivity. Qed.

(** The first call of a sequence is always attempted. *)
Lemma exec_calls_first (c : Call) (cs : list Call) (st st' : Stage)
    (r : option Exn) (t : list Call) :
  exec_calls host (c :: cs) st = (r, st', t) -> ∃ t', t = c :: t'.
Proof.
  rewrite exec_calls_cons. destruct (raises host st c).
  - intros [= <- <- <-]. by exists [].
  - destruct (exec_calls host cs (usd_step c st)) as [[r1 st1] t1].
    intros [= <- <- <-]. by exists t1.
Qed.

(** The calls attempted are calls of the sequence. *)
Lemma exec_calls_trace (cs : list Call) (st st' : Stage) (t : list Call)
    (r : option Exn) :
  exec_calls host cs st = (r, st', t) -> t ⊆ cs.
Proof.
  destruct r as [e|]; intros E.
  - apply exec_calls_Some in E as (pre & c & post & -> & -> & _).
    intros x. rewrite !elem_of_app, !elem_of_cons, elem_of_nil. tauto.
  - by apply exec_calls_None in E as [-> _].
Qed.

(** ** The functions as sequences of host calls *)

Lemma exec_then_nil {A} (k : M A) (s : State) : exec_then host [] k s = k s.
Proof.
  unfold exec_then. cbn. destruct s as [x st]; cbn.
  by destruct (k _) as [[r s'] t].
Qed.

Lemma exec_then_call {A B} (c : Call) (a : A) (k : A -> M B) (cs : list Call)
    (k' : M B) :
  (∀ s, k a s = exec_then host cs k' s) ->
  ∀ s, (call host c a ≫= k) s = exec_then host (c :: cs) k' s.
Proof.
  intros Hk [x st]. unfold mbind, M_bind, bind, call, exec_then.
  cbn [exec_calls stage ext].
  destruct (raises host st c); [done|].
  rewrite Hk. unfold exec_then. cbn [stage ext].
  destruct (exec_calls host cs (usd_step c st)) as [[[e|] st'] t];
    [done|]. by destruct (k' _) as [[r s'] t'].
Qed.

Lemma exec_then_app {A} (cs cs' : list Call) (k : M A) (s : State) :
  exec_then host cs (exec_then host cs' k) s = exec_then host (cs ++ cs') k s.
Proof.
  unfold exec_then. rewrite exec_calls_app.
  destruct (exec_calls host cs (stage s)) as [[[e|] st] t]; [done|].
  cbn [stage ext].
  destruct (exec_calls host cs' st) as [[[e|] st'] t']; cbn.
  - by rewrite fmap_app.
  - destruct (k _) as [[r s'] t'']. by rewrite fmap_app, <-app_assoc.
Qed.

Lemma exec_then_bind {A B} (m : M A) (a : A) (k : A -> M B)
    (cs cs' : list Call) (k' : M B) :
  (∀ s, m s = exec_then host cs (mret a) s) ->
  (∀ s, k a s = exec_then host cs' k' s) ->
  ∀ s, (m ≫= k) s = exec_then host (cs ++ cs') k' s.
Proof.
  intros Hm Hk s. rewrite <-exec_then_app.
  unfold mbind, M_bind, bind. rewrite Hm.
  revert Hk. generalize (exec_then host cs' k'). intros K HK.
  unfold exec_then.
  destruct (exec_calls host cs (stage s)) as [[[e|] st] t]; [done|].
  unfold mret, M_ret, ret. rewrite app_nil_r. by rewrite HK.
Qed.

Lemma exec_then_bind_last {A B} (m : M A) (a : A) (k : A -> M B)
    (cs : list Call) :
  (∀ s, m s = exec_then host cs (mret a) s) ->
  ∀ s, (m ≫= k) s = exec_then host cs (k a) s.
Proof.
  intros Hm s. rewrite <-(app_nil_r cs).
  apply (exec_then_bind m a k cs [] (k a)); [done|].
  intros s'. by rewrite exec_then_nil.
Qed.

Ltac exec_step :=
  first [ apply exec_then_call; cbv beta zeta
        | intros ?; symmetry; apply exec_then_nil ].

Lemma create_textured_plane_prim_exec (prim_path texture_name : string) :
  ∀ s, create_textured_plane_prim host prim_path texture_name s =
       exec_then host (plane_calls prim_path texture_name)
         (mret (prim_path +:+ "/Mesh")) s.
Proof.
  unfold create_textured_plane_prim, plane_calls. cbv zeta.
  do 18 exec_step. exec_step.
Qed.

Lemma create_dynamic_texture_exec (texture_name : string) (bytes : list byte)
    (resolution : Z * Z) (format : TextureFormat) :
  ∀ s, create_dynamic_texture host texture_name bytes resolution format s =
       exec_then host
         [ NewDynamicTextureProvider texture_name;
           SetBytesData texture_name (map byte_to_int bytes)
             [resolution.1; resolution.2] format ]
         (mret {| dtp_name := texture_name;
                  dtp_data := Some (map byte_to_int bytes,
                                    [resolution.1; resolution.2], format) |}) s.
Proof.
  unfold create_dynamic_texture. cbv zeta. do 2 exec_step. exec_step.
Qed.

(** The handler from the definition of the root prim on. *)
Lemma click_tail_exec :
  ∀ s,
    (model_root ← call host (Define "Xform" target) target;
     call host (SetKind model_root "component") ();;
     create_textured_plane_prim host target "Thing";;
     image ← call host (ImageOpen (module_dir host +:+ "/cat.jpg") "r")
               (pil_open host (module_dir host +:+ "/cat.jpg"));
     image ← call host (ImageConvert "RGBA") (pil_convert host "RGBA" image);
     image_bytes ← call host ImageToBytes (data image);
     t ← create_dynamic_texture host "Thing" image_bytes
           (width image, height image) RGBA8_UNORM;
     store_texture (Some t)) s
    = exec_then host (click_build ++ click_upload host)
        (store_texture (Some (click_provider host))) s.
Proof.
  unfold click_build, click_root, click_upload. cbn [app].
  do 2 exec_step.
  eapply exec_then_bind; [apply create_textured_plane_prim_exec|].
  do 3 exec_step.
  unfold click_provider, click_image.
  intros s. by rewrite (exec_then_bind_last _ _ _ _
                          (create_dynamic_texture_exec _ _ _ _)).
Qed.

(** The removal step: whatever the removal call does, the step returns. *)
Lemma removal_step_exec {B} (k : () -> M B) (s : State) :
  (try_except_pass (call host (RemovePrim target) ();; store_texture None)
     ≫= k) s =
    match k () (after_removal host s) with
    | (r, s', t) =>
        (r, s', removal_events (removal_returns host (stage s)) ++ t)
    end.
Proof.
  unfold mbind, M_bind, bind, try_except_pass, call, store_texture,
    after_removal, removal_returns, removal_events.
  destruct (raises host (stage s) (RemovePrim target)); cbn;
    by destruct (k () _) as [[r s'] t].
Qed.

Lemma on_click_create_exec (s : State) :
  on_click_create host s =
    exec_then host click_head (λ s1,
      match exec_then host (click_build ++ click_upload host)
              (store_texture (Some (click_provider host)))
              (after_removal host s1) with
      | (r, s', t) =>
          (r, s', removal_events (removal_returns host (stage s1)) ++ t)
      end) s.
Proof.
  revert s. unfold on_click_create, click_head. cbv zeta.
  do 2 exec_step. intros s. rewrite exec_then_nil.
  change ("/World/" +:+ "Thing") with target.
  rewrite removal_step_exec. by rewrite click_tail_exec.
Qed.

(** The three ways a click can go: a call before the removal step raises,
    a call after it raises, or the click completes. *)
Lemma on_click_create_cases (s s' : State) (r : Result ()) (t : list Event) :
  on_click_create host s = (r, s', t) ->
  (∃ e t1,
      exec_calls host click_head (stage s) = (Some e, stage s', t1) ∧
      r = Raise e ∧ ext s' = ext s ∧ t = Host <$> t1) ∨
  (∃ e t3,
      exec_calls host click_head (stage s) = (None, stage s, click_head) ∧
      exec_calls host (click_build ++ click_upload host)
        (stage (after_removal host s)) = (Some e, stage s', t3) ∧
      r = Raise e ∧ ext s' = ext (after_removal host s) ∧
      t = (Host <$> click_head) ++
          removal_events (removal_returns host (stage s)) ++ (Host <$> t3)) ∨
  (exec_calls host click_head (stage s) = (None, stage s, click_head) ∧
   exec_calls host (click_build ++ click_upload host)
     (stage (after_removal host s))
     = (None, stage s', click_build ++ click_upload host) ∧
   stage s' = usd_steps click_build (stage (after_removal host s)) ∧
   r = Ok () ∧
   ext s' = {| _texture := Some (click_provider host);
               _window := _window (ext s) |} ∧
   t = (Host <$> click_head) ++
       removal_events (removal_returns host (stage s)) ++
       (Host <$> (click_build ++ click_upload host)) ++
       [StoreTexture (Some (click_provider host))]).
Proof.
  rewrite on_click_create_exec. unfold exec_then at 1.
  destruct (exec_calls host click_head (stage s)) as [[[e|] st1] t1] eqn:E1.
  { intros [= <- <- <-]. left. by exists e, t1. }
  apply exec_calls_None in E1 as [-> ->].
  change (usd_steps click_head (stage s)) with (stage s).
  replace {| ext := ext s; stage := stage s |} with s by (by destruct s).
  unfold exec_then, store_texture.
  destruct (exec_calls host (click_build ++ click_upload host)
              (stage (after_removal host s))) as [[[e|] st3] t3] eqn:E3.
  { intros [= <- <- <-]. right; left. by exists e, t3. }
  pose proof E3 as [-> ->]%exec_calls_None.
  intros [= <- <- <-]. right; right. cbn [stage ext _window].
  repeat split; try done.
  unfold after_removal. by destruct (removal_returns host (stage s)).
Qed.

End Runs.

(** ** Facts about the handler's calls *)

Lemma prim_step_outside (root : string) (c : Call) (k : string)
    (o : option Prim) :
  writes_under root c = true -> in_subtree root k = false ->
  prim_step c k o = o.
Proof.
  intros W K.
  destruct c; cbn in W |- *; try done;
    by destruct (String.eqb_spec path k) as [->|]; [congruence|].
Qed.

Lemma prim_steps_outside (root : string) (cs : list Call) (k : string)
    (o : option Prim) :
  forallb (writes_under root) cs = true -> in_subtree root k = false ->
  prim_steps cs k o = o.
Proof.
  intros W K. revert o. induction cs as [|c cs IH]; intros o; [done|].
  cbn in W. apply andb_prop in W as [Wc W].
  rewrite prim_steps_cons, (prim_step_outside root) by done. by apply IH.
Qed.

Lemma click_build_under_target : forallb (writes_under target) click_build = true.
Proof. by vm_compute. Qed.

Lemma usd_steps_upload (cs : list Call) (st : Stage) :
  Forall (λ c, image_or_upload c = true) cs -> usd_steps cs st = st.
Proof.
  intros F. revert st. induction F as [|c cs Hc _ IH]; intros st; [done|].
  unfold usd_steps. cbn [foldl]. fold (usd_steps cs (usd_step c st)).
  rewrite IH. by destruct c.
Qed.

Lemma click_upload_calls (host : HostEnv) :
  Forall (λ c, image_or_upload c = true) (click_upload host).
Proof. unfold click_upload. by repeat constructor. Qed.

Lemma click_build_calls : Forall (λ c, image_or_upload c = false) click_build.
Proof.
  unfold click_build, click_root, plane_calls. cbv zeta. cbn [app].
  by repeat constructor.
Qed.

Lemma click_head_calls : Forall (λ c, image_or_upload c = false) click_head.
Proof. unfold click_head. by repeat constructor. Qed.

Lemma click_build_shader (st : Stage) :
  attr_of (usd_steps click_build st) target_shader "inputs:diffuse_texture"
    = Some (VAsset "dynamic://Thing").
Proof.
  unfold click_build. rewrite usd_steps_app.
  apply (plane_shader target "Thing").
Qed.

Lemma click_build_types (st : Stage) :
  let st' := usd_steps click_build st in
  type_of st' target = Some "Xform" ∧
  kind_of st' target = Some "component" ∧
  type_of st' target_mesh = Some "Mesh" ∧
  type_of st' target_material = Some "Material" ∧
  type_of st' target_shader = Some "Shader".
Proof.
  cbv zeta. unfold type_of, kind_of. rewrite !usd_steps_lookup.
  unfold click_build, click_root, plane_calls, target, target_mesh,
    target_material, target_shader. cbv zeta. cbn [app].
  repeat split; prim_steps_eval; done.
Qed.

Lemma fresh_plane_dom :
  dom fresh_plane
    = {[target; target_mesh; target_material; target_shader]}.
Proof. vm_compute. reflexivity. Qed.

Section Handler.

Context (host : HostEnv).

(** A run of the calls after the removal step stops while writing the
    document, or while loading and uploading the image with the document
    complete, or not at all. *)
Lemma click_tail_cases (st st' : Stage) (r : option Exn) (t : list Call) :
  exec_calls host (click_build ++ click_upload host) st = (r, st', t) ->
  (is_Some r ∧ t ⊆ click_build) ∨
  (∃ t', t = click_build ++ t' ∧ t' ⊆ click_upload host ∧
         st' = usd_steps click_build st).
Proof.
  rewrite exec_calls_app.
  destruct (exec_calls host click_build st) as [[[e|] st1] t1] eqn:E1.
  - intros [= <- <- <-]. left. split; [done|]. by eapply exec_calls_trace.
  - apply exec_calls_None in E1 as [-> ->].
    destruct (exec_calls host (click_upload host) (usd_steps click_build st))
      as [[r2 st2] t2] eqn:E2.
    intros [= <- <- <-]. right. exists t2. split; [done|].
    split; [by eapply exec_calls_trace|].
    destruct r2 as [e|].
    + apply exec_calls_Some in E2 as (pre & c & post & Hcs & _ & -> & _).
      apply usd_steps_upload. pose proof (click_upload_calls host) as F.
      rewrite Hcs in F. by apply Forall_app in F as [F _].
    + apply exec_calls_None in E2 as [_ ->].
      apply usd_steps_upload, click_upload_calls.
Qed.

(** Once the first call of the plane builder has been attempted, the root
    prim has been defined and given its kind just before. *)
Lemma click_tail_root_first (st st' : Stage) (r : option Exn) (t : list Call) :
  exec_calls host (click_build ++ click_upload host) st = (r, st', t) ->
  Define "Mesh" target_mesh ∈ t ->
  ∃ post,
    t = Define "Xform" target :: SetKind target "component" ::
        Define "Mesh" target_mesh :: post.
Proof.
  change (click_build ++ click_upload host)
    with (Define "Xform" target :: SetKind target "component" ::
          (plane_calls target "Thing" ++ click_upload host)).
  rewrite !exec_calls_cons.
  destruct (raises host st _).
  { intros [= <- <- <-] [=]%list_elem_of_singleton. }
  destruct (raises host _ (SetKind _ _)).
  { intros [= <- <- <-] H. apply elem_of_cons in H as [[=]|H].
    by apply list_elem_of_singleton in H. }
  destruct (exec_calls host _ _) as [[r1 st1] t1] eqn:E.
  intros [= <- <- <-] _.
  change (plane_calls target "Thing" ++ click_upload host)
    with (Define "Mesh" target_mesh ::
          (tail (plane_calls target "Thing") ++ click_upload host)) in E.
  apply exec_calls_first in E as [t' ->]. by exists t'.
Qed.

(** A click completes on a host that accepts every call other than the
    removal. *)
Lemma on_click_create_completes (s : State) :
  (∀ st c, c ∈ click_head ++ click_build ++ click_upload host ->
           raises host st c = None) ->
  ∃ s' t, on_click_create host s = (Ok (), s', t).
Proof.
  intros Q. rewrite on_click_create_exec. unfold exec_then.
  rewrite exec_calls_accepted
    by (intros st c Hc; apply Q, elem_of_app; by left).
  rewrite exec_calls_accepted
    by (intros st c Hc; apply Q, elem_of_app; by right).
  unfold store_texture. by eexists _, _.
Qed.

(** [on_startup] never returns: it raises when it reads [on_click_create],
    unless the host raised before when creating the window. *)
Lemma on_startup_raises (ext_id : string) (s : State) :
  ∃ e s' t, on_startup host ext_id s = (Raise e, s', t) ∧
            _texture (ext s') = None.
Proof.
  unfold on_startup, mbind, M_bind, bind, store_texture, store_window, call,
    raise. cbn [stage ext].
  destruct (raises host (stage s) _) as [e|]; cbn; by eexists _, _, _.
Qed.

End Handler.

(** [list(bytes)] loses nothing: the buffer can be read back from it. *)
Lemma byte_to_int_inj (bs bs' : list byte) :
  map byte_to_int bs = map byte_to_int bs' -> bs = bs'.
Proof.
  revert bs'. induction bs as [|b bs IH]; intros [|b' bs']; cbn; try done.
  intros [= Hb Hbs]. f_equal; [|by apply IH].
  unfold byte_to_int in Hb. apply N2Z.inj in Hb.
  apply (f_equal Byte.of_N) in Hb. rewrite !Byte.of_to_N in Hb. congruence.
Qed.

(** * The claims *)

Section Claims.

Context (host : HostEnv).

(** C1.  After [create_textured_plane_prim stage path textureName] returns,
    the prim at [path/Material/Shader] is a shader whose [diffuse_texture]
    input holds exactly the asset ["dynamic://" + textureName]. *)
Theorem shader_texture_uri (prim_path texture_name : string) (s s' : State)
    (r : string) (t : list Event) :
  create_textured_plane_prim host prim_path texture_name s = (Ok r, s', t) ->
  type_of (stage s') (prim_path +:+ "/Material/Shader") = Some "Shader" ∧
  attr_of (stage s') (prim_path +:+ "/Material/Shader")
    "inputs:diffuse_texture"
    = Some (VAsset ("dynamic://" +:+ texture_name)).
Proof.
  rewrite create_textured_plane_prim_exec. unfold exec_then.
  destruct (exec_calls host (plane_calls prim_path texture_name) (stage s))
    as [[[e|] st] t1] eqn:E; [done|].
  apply exec_calls_None in E as [-> ->].
  intros [= <- <- <-]. cbn [stage]. apply plane_shader.
Qed.

(** C2.  Building at [/World/Thing] with texture name ["Thing"], on any
    document and any host that accepts the calls, returns the mesh at
    [/World/Thing/Mesh] with the four corner points, a single face of four
    vertices with indices 0..3, and the ["st"] primvar (0,0) (1,0) (1,1)
    (0,1). *)
Theorem plane_at_world_thing (s : State) :
  (∀ st c, c ∈ plane_calls "/World/Thing" "Thing" -> raises host st c = None) ->
  ∃ s' t,
    create_textured_plane_prim host "/World/Thing" "Thing" s
      = (Ok "/World/Thing/Mesh", s', t) ∧
    type_of (stage s') "/World/Thing/Mesh" = Some "Mesh" ∧
    attr_of (stage s') "/World/Thing/Mesh" "points"
      = Some (VPoint3Array [(-430, -145, 0); (430, -145, 0);
                            (430, 145, 0); (-430, 145, 0)]) ∧
    attr_of (stage s') "/World/Thing/Mesh" "faceVertexCounts"
      = Some (VIntArray [4]) ∧
    attr_of (stage s') "/World/Thing/Mesh" "faceVertexIndices"
      = Some (VIntArray [0; 1; 2; 3]) ∧
    attr_of (stage s') "/World/Thing/Mesh" "primvars:st"
      = Some (VTexCoord2Array [(0, 0); (1, 0); (1, 1); (0, 1)]).
Proof.
  intros Q. eexists _, _. rewrite create_textured_plane_prim_exec.
  unfold exec_then. rewrite exec_calls_accepted by done.
  split; [reflexivity|]. cbn [stage]. apply (plane_mesh "Thing").
Qed.

(** C6.  [on_shutdown] sets the stored texture handle to [None] and does not
    raise, whatever the extension holds. *)
Theorem on_shutdown_clears (s : State) :
  on_shutdown s =
    (Ok (),
     {| ext := {| _texture := None; _window := _window (ext s) |};
        stage := stage s |},
     [StoreTexture None]).
Proof. reflexivity. Qed.

(** C7.  [create_dynamic_texture] never compares the length of the buffer
    with the resolution and format: for every buffer, resolution and format
    it constructs the provider under the given name and hands it the bytes,
    the resolution and the format as given; it raises only what one of
    these two host calls raises. *)
Theorem create_dynamic_texture_unchecked (texture_name : string)
    (bytes : list byte) (resolution : Z * Z) (format : TextureFormat)
    (s : State) :
  let construct := NewDynamicTextureProvider texture_name in
  let set_bytes_data :=
    SetBytesData texture_name (map byte_to_int bytes)
      [resolution.1; resolution.2] format in
  create_dynamic_texture host texture_name bytes resolution format s =
    match raises host (stage s) construct with
    | Some e => (Raise e, s, [Host construct])
    | None =>
        match raises host (stage s) set_bytes_data with
        | Some e => (Raise e, s, [Host construct; Host set_bytes_data])
        | None =>
            (Ok {| dtp_name := texture_name;
                   dtp_data := Some (map byte_to_int bytes,
                                     [resolution.1; resolution.2], format) |},
             s, [Host construct; Host set_bytes_data])
        end
    end.
Proof.
  cbv zeta. rewrite create_dynamic_texture_exec. unfold exec_then.
  rewrite !exec_calls_cons. destruct s as [x st]. cbn [stage ext].
  destruct (raises host st _); [done|].
  change (usd_step (NewDynamicTextureProvider texture_name) st) with st.
  destruct (raises host st _); done.
Qed.

(** C3, as the code has it.  A click that runs to completion performs, in
    this order: the lookup of the document, the removal attempt at
    [/World/Thing], the clearing of the stored handle if (and only if) the
    removal call did not raise, the definition of the root prim, the calls
    of the plane builder, the opening of the adjacent [cat.jpg], its
    conversion to RGBA, the reading of its bytes, the upload of those bytes
    with the image's (width, height) in format RGBA8_UNORM, and the storing
    of the provider returned. *)
Theorem click_steps (s s' : State) (t : list Event) :
  on_click_create host s = (Ok (), s', t) ->
  t = (Host <$> click_head) ++
      removal_events (removal_returns host (stage s)) ++
      (Host <$> click_root) ++
      (Host <$> plane_calls target "Thing") ++
      (Host <$> click_upload host) ++
      [StoreTexture (Some (click_provider host))] ∧
  performs_in_order
    (performed_click_steps host (removal_returns host (stage s))) t ∧
  _texture (ext s') = Some (click_provider host).
Proof.
  intros [(e & t1 & _ & [=] & _) | [(e & t3 & _ & _ & [=] & _)
    | (_ & _ & _ & _ & -> & ->)]]%on_click_create_cases.
  unfold click_build. rewrite !fmap_app, <-!app_assoc.
  split; [done|]. split; [|done].
  unfold performs_in_order, performed_click_steps.
  apply sublist_inserts_l, sublist_app; [done|]. by apply sublist_inserts_l.
Qed.

(** C4.  Whenever a click reaches the construction of the texture provider,
    the name it registers the provider under is the name in the URI that the
    shader's texture input holds; a click that completes stores a provider
    of that name. *)
Theorem click_names_agree (s s' : State) (r : Result ()) (t : list Event)
    (n : string) :
  on_click_create host s = (r, s', t) ->
  Host (NewDynamicTextureProvider n) ∈ t ->
  attr_of (stage s') target_shader "inputs:diffuse_texture"
    = Some (VAsset ("dynamic://" +:+ n)) ∧
  (r = Ok () -> dtp_name <$> _texture (ext s') = Some n).
Proof.
  assert (Hhead : ∀ t1, t1 ⊆ click_head -> Host (NewDynamicTextureProvider n) ∉ Host <$> t1).
  { intros t1 Sub (c & [= <-] & Hc%Sub)%list_elem_of_fmap.
    pose proof click_head_calls as F. rewrite Forall_forall in F.
    by specialize (F _ Hc). }
  assert (Hrm : ∀ b, Host (NewDynamicTextureProvider n) ∉ removal_events b).
  { intros [] H; unfold removal_events in H;
      repeat (apply elem_of_cons in H as [[=]|H]); by apply elem_of_nil in H. }
  assert (Htail : ∀ st st' r' t3,
    exec_calls host (click_build ++ click_upload host) st = (r', st', t3) ->
    Host (NewDynamicTextureProvider n) ∈ Host <$> t3 ->
    n = "Thing" ∧ st' = usd_steps click_build st).
  { intros st st' r' t3 E (c & [= <-] & Hc)%list_elem_of_fmap.
    pose proof click_build_calls as F. rewrite Forall_forall in F.
    apply click_tail_cases in E as [[_ Sub] | (t' & -> & Sub & ->)].
    { by specialize (F _ (Sub _ Hc)). }
    split; [|done]. apply elem_of_app in Hc as [Hc|Hc%Sub].
    { by specialize (F _ Hc). }
    unfold click_upload in Hc.
    repeat (apply elem_of_cons in Hc as [[=]|Hc]); try done.
    by apply elem_of_nil in Hc. }
  intros [(e & t1 & E1 & _ & _ & ->) | [(e & t3 & _ & E3 & -> & _ & ->)
    | (_ & E3 & _ & -> & Hx & ->)]]%on_click_create_cases H.
  - exfalso. by eapply Hhead; [eapply exec_calls_trace|].
  - rewrite !elem_of_app in H. destruct H as [H|[H|H]].
    + exfalso. by eapply (Hhead click_head).
    + exfalso. by eapply Hrm.
    + destruct (Htail _ _ _ _ E3 H) as [-> ->].
      split; [apply click_build_shader|done].
  - rewrite !elem_of_app in H. destruct H as [H|[H|[H|H]]].
    + exfalso. by eapply (Hhead click_head).
    + exfalso. by eapply Hrm.
    + destruct (Htail _ _ _ _ E3 H) as [-> ->].
      split; [apply click_build_shader|]. by rewrite Hx.
    + by apply list_elem_of_singleton in H.
Qed.

(** C5.  On every document, with or without a prim at [/World/Thing], and
    whatever the removal call does, the removal step does not raise: once the
    document has been looked up, the handler attempts the removal and then
    goes on to define the root prim. *)
Theorem removal_never_raises (s : State) :
  raises host (stage s) GetContext = None ->
  raises host (stage s) GetStage = None ->
  ∃ r s' rest,
    on_click_create host s =
      (r, s',
       Host GetContext :: Host GetStage ::
       removal_events (removal_returns host (stage s)) ++
       Host (Define "Xform" target) :: rest).
Proof.
  intros H1 H2. destruct (on_click_create host s) as [[r s'] t] eqn:E.
  assert (Hfirst : ∀ e' st' t3,
    exec_calls host (click_build ++ click_upload host)
      (stage (after_removal host s)) = (e', st', t3) ->
    ∃ t', t3 = Define "Xform" target :: t').
  { intros e' st' t3 E3.
    change (click_build ++ click_upload host)
      with (Define "Xform" target ::
            (tail click_build ++ click_upload host)) in E3.
    by apply exec_calls_first in E3. }
  apply on_click_create_cases in E
    as [(e & t1 & E1 & _) | [(e & t3 & _ & E3 & _ & _ & ->)
    | (_ & E3 & _ & _ & _ & ->)]].
  - unfold click_head in E1. rewrite !exec_calls_cons, H1 in E1.
    change (usd_step GetContext (stage s)) with (stage s) in E1.
    by rewrite H2 in E1.
  - destruct (Hfirst _ _ _ E3) as [t' ->]. eexists r, s', _.
    cbn [click_head fmap list_fmap app]. reflexivity.
  - destruct (Hfirst _ _ _ E3) as [t' Ht']. rewrite Ht'. eexists r, s', _.
    cbn [click_head fmap list_fmap app]. reflexivity.
Qed.

(** C8.  After two clicks in succession the document has exactly one subtree
    at [/World/Thing]: each click leaves one root prim there, and the second
    click, its removal call having returned, removed everything at and below
    that path before rebuilding, so that what is there in the end is the
    freshly built plane and nothing else: a root, a mesh, a material and a
    shader. *)
Theorem second_click_rebuilds (s0 s1 s2 : State) (t1 t2 : list Event) :
  on_click_create host s0 = (Ok (), s1, t1) ->
  on_click_create host s1 = (Ok (), s2, t2) ->
  type_of (stage s1) target = Some "Xform" ∧
  type_of (stage s2) target = Some "Xform" ∧
  (removal_returns host (stage s1) = true ->
   (∀ k, in_subtree target k = true ->
         stage (after_removal host s1) !! k = None) ∧
   filter (λ kv, in_subtree target kv.1 = true) (stage s2) = fresh_plane) ∧
  dom fresh_plane
    = {[target; target_mesh; target_material; target_shader]}.
Proof.
  intros [(e & t & _ & [=] & _) | [(e & t & _ & _ & [=] & _)
    | (_ & _ & St1 & _)]]%on_click_create_cases.
  intros [(e & t & _ & [=] & _) | [(e & t & _ & _ & [=] & _)
    | (_ & _ & St2 & _)]]%on_click_create_cases.
  split; [rewrite St1; apply click_build_types|].
  split; [rewrite St2; apply click_build_types|].
  split; [|apply fresh_plane_dom]. intros R.
  assert (Hgone : ∀ k, in_subtree target k = true ->
                       stage (after_removal host s1) !! k = None).
  { intros k K. unfold after_removal. rewrite R. cbn [stage].
    rewrite usd_step_lookup. cbn. by rewrite K. }
  split; [done|].
  apply map_eq. intros k. rewrite map_lookup_filter. cbn [fst].
  unfold fresh_plane. rewrite St2, !usd_steps_lookup, lookup_empty.
  destruct (in_subtree target k) eqn:K.
  - rewrite Hgone by done.
    destruct (prim_steps click_build k None); cbn; [|done].
    by rewrite option_guard_True.
  - rewrite !(prim_steps_outside target)
      by (done || apply click_build_under_target).
    destruct (stage (after_removal host s1) !! k); cbn; [|done].
    by rewrite option_guard_False.
Qed.

(** C9, as the code has it.  When the image load, the decoding or the upload
    raises, the handler does not catch the exception: the click ends with
    the exception the host raised.  The stored texture handle is then [None]
    if the removal call of that click returned; if the removal call raised,
    the handle is the one stored before the click. *)
Theorem failed_upload_propagates (s s' : State) (r : Result ())
    (t : list Event) (c : Call) :
  on_click_create host s = (r, s', t) ->
  last t = Some (Host c) ->
  image_or_upload c = true ->
  ∃ e,
    r = Raise e ∧ raises host (stage s') c = Some e ∧
    _texture (ext s') =
      if removal_returns host (stage s) then None else _texture (ext s).
Proof.
  intros [(e & t1 & E1 & -> & _ & ->) | [(e & t3 & _ & E3 & -> & Hx & ->)
    | (_ & _ & _ & _ & _ & ->)]]%on_click_create_cases L U.
  - apply exec_calls_Some in E1 as (pre & c' & post & Hcs & -> & _).
    rewrite fmap_last, last_snoc in L. injection L as ->.
    pose proof click_head_calls as F. rewrite Hcs in F.
    apply Forall_app in F as [_ F]. apply Forall_cons in F as [F _]. congruence.
  - apply exec_calls_Some in E3 as (pre & c' & post & _ & -> & _ & R).
    rewrite !app_assoc, fmap_app in L. cbn [fmap list_fmap] in L.
    rewrite !app_assoc, last_snoc in L. injection L as ->.
    exists e. split; [done|]. split; [done|]. rewrite Hx.
    unfold after_removal. by destruct (removal_returns host (stage s)).
  - by rewrite !app_assoc, last_snoc in L.
Qed.

(** C10.  Whenever a click reaches the plane builder, it has just before
    defined an Xform prim at [/World/Thing] itself and set its kind to
    ["component"]; when the click completes, that root is an Xform of kind
    component, and the mesh, the material and the shader are prims below it,
    at [/World/Thing/Mesh], [/World/Thing/Material] and
    [/World/Thing/Material/Shader]. *)
Theorem click_defines_root_first (s s' : State) (r : Result ())
    (t : list Event) :
  on_click_create host s = (r, s', t) ->
  Host (Define "Mesh" target_mesh) ∈ t ->
  (∃ pre post,
     t = pre ++ Host (Define "Xform" target) ::
                Host (SetKind target "component") ::
                Host (Define "Mesh" target_mesh) :: post) ∧
  (r = Ok () ->
   type_of (stage s') target = Some "Xform" ∧
   kind_of (stage s') target = Some "component" ∧
   type_of (stage s') target_mesh = Some "Mesh" ∧
   type_of (stage s') target_material = Some "Material" ∧
   type_of (stage s') target_shader = Some "Shader").
Proof.
  assert (Hhead : ∀ t1, t1 ⊆ click_head ->
                        Host (Define "Mesh" target_mesh) ∉ Host <$> t1).
  { intros t1 Sub (c & [= <-] & Hc%Sub)%list_elem_of_fmap.
    unfold click_head in Hc.
    repeat (apply elem_of_cons in Hc as [[=]|Hc]). by apply elem_of_nil in Hc. }
  assert (Hrm : ∀ b, Host (Define "Mesh" target_mesh) ∉ removal_events b).
  { intros [] H; unfold removal_events in H;
      repeat (apply elem_of_cons in H as [[=]|H]); by apply elem_of_nil in H. }
  assert (Htail : ∀ st st' r' t3,
    exec_calls host (click_build ++ click_upload host) st = (r', st', t3) ->
    Host (Define "Mesh" target_mesh) ∈ Host <$> t3 ->
    ∃ post, t3 = Define "Xform" target :: SetKind target "component" ::
                 Define "Mesh" target_mesh :: post).
  { intros st st' r' t3 E (c & [= <-] & Hc)%list_elem_of_fmap.
    by eapply click_tail_root_first. }
  intros [(e & t1 & E1 & _ & _ & ->) | [(e & t3 & _ & E3 & -> & _ & ->)
    | (_ & E3 & St & _ & _ & ->)]]%on_click_create_cases H.
  - exfalso. by eapply Hhead; [eapply exec_calls_trace|].
  - split; [|done]. rewrite !elem_of_app in H. destruct H as [H|[H|H]].
    + exfalso. by eapply (Hhead click_head).
    + exfalso. by eapply Hrm.
    + destruct (Htail _ _ _ _ E3 H) as [post ->].
      exists ((Host <$> click_head) ++
              removal_events (removal_returns host (stage s))),
             (Host <$> post).
      rewrite <-app_assoc. reflexivity.
  - split; [|intros _; rewrite St; apply click_build_types].
    rewrite !elem_of_app in H. destruct H as [H|[H|[H|H]]].
    + exfalso. by eapply (Hhead click_head).
    + exfalso. by eapply Hrm.
    + destruct (Htail _ _ _ _ E3 H) as [post Hpost]. rewrite Hpost.
      exists ((Host <$> click_head) ++
              removal_events (removal_returns host (stage s))),
             ((Host <$> post) ++ [StoreTexture (Some (click_provider host))]).
      rewrite <-app_assoc. reflexivity.
    + by apply list_elem_of_singleton in H.
Qed.

End Claims.

(** ** Runs that satisfy the hypotheses, and runs that refute two claims *)

(** C1 holds of a run: the build on a fresh document. *)
Lemma shader_texture_uri_witness :
  ∃ s' t,
    create_textured_plane_prim host_ok "/World/Thing" "Thing" state_fresh
      = (Ok "/World/Thing/Mesh", s', t) ∧
    attr_of (stage s') "/World/Thing/Material/Shader" "inputs:diffuse_texture"
      = Some (VAsset "dynamic://Thing").
Proof.
  pose (out := create_textured_plane_prim host_ok "/World/Thing" "Thing"
                 state_fresh).
  assert (E : create_textured_plane_prim host_ok "/World/Thing" "Thing"
                state_fresh = (Ok "/World/Thing/Mesh", out.1.2, out.2))
    by (vm_compute; reflexivity).
  exists out.1.2, out.2. split; [exact E|].
  exact (proj2 (shader_texture_uri host_ok "/World/Thing" "Thing" state_fresh
                  _ _ _ E)).
Defined.

(** C2 holds of a run: the host that accepts every call. *)
Lemma plane_at_world_thing_witness :
  ∃ s' t,
    create_textured_plane_prim host_ok "/World/Thing" "Thing" state_fresh
      = (Ok "/World/Thing/Mesh", s', t) ∧
    attr_of (stage s') "/World/Thing/Mesh" "faceVertexCounts"
      = Some (VIntArray [4]).
Proof.
  destruct (plane_at_world_thing host_ok state_fresh)
    as (s' & t & H & _ & _ & F & _).
  - reflexivity.
  - by exists s', t.
Defined.

(** C3 holds of a run: a click on a fresh document. *)
Lemma click_steps_witness :
  ∃ s' t,
    on_click_create host_ok state_fresh = (Ok (), s', t) ∧
    _texture (ext s') = Some (click_provider host_ok).
Proof.
  pose (out := on_click_create host_ok state_fresh).
  assert (E : on_click_create host_ok state_fresh = (Ok (), out.1.2, out.2))
    by (vm_compute; reflexivity).
  exists out.1.2, out.2. split; [exact E|].
  exact (proj2 (proj2 (click_steps host_ok state_fresh _ _ E))).
Defined.

(** C3 as the specification has it fails: on a host whose removal call
    raises, a click runs to completion without ever clearing the stored
    handle, so the listed steps are not all performed. *)
Lemma click_without_clearing :
  ∃ s' t,
    on_click_create host_remove_raises state_holding = (Ok (), s', t) ∧
    ¬ performs_in_order (claimed_click_steps host_remove_raises) t.
Proof.
  eexists _, _. split; [vm_compute; reflexivity|].
  intros Sub. unfold performs_in_order in Sub.
  assert (H : StoreTexture None ∈ claimed_click_steps host_remove_raises)
    by (unfold claimed_click_steps, performed_click_steps, removal_events;
        right; left).
  apply (elem_of_sublist _ _ _ H) in Sub.
  repeat (apply elem_of_cons in Sub as [[=]|Sub]). by apply elem_of_nil in Sub.
Qed.

(** C4 holds of a run. *)
Lemma click_names_agree_witness :
  ∃ s' t,
    on_click_create host_ok state_fresh = (Ok (), s', t) ∧
    attr_of (stage s') target_shader "inputs:diffuse_texture"
      = Some (VAsset "dynamic://Thing") ∧
    dtp_name <$> _texture (ext s') = Some "Thing".
Proof.
  pose (out := on_click_create host_ok state_fresh).
  assert (E : on_click_create host_ok state_fresh = (Ok (), out.1.2, out.2))
    by (vm_compute; reflexivity).
  exists out.1.2, out.2. split; [exact E|].
  destruct (click_names_agree host_ok state_fresh _ _ _ "Thing" E) as [U N].
  - vm_compute. do 27 right. left.
  - split; [exact U|]. by apply N.
Defined.

(** C5 holds of a run: the removal call raises and the click goes on. *)
Lemma removal_never_raises_witness :
  ∃ r s' rest,
    on_click_create host_remove_raises state_holding =
      (r, s',
       Host GetContext :: Host GetStage :: Host (RemovePrim target) ::
       Host (Define "Xform" target) :: rest).
Proof.
  apply (removal_never_raises host_remove_raises state_holding); reflexivity.
Defined.

(** C8 holds of a run: two clicks on a fresh document. *)
Lemma second_click_rebuilds_witness :
  ∃ s1 t1 s2 t2,
    on_click_create host_ok state_fresh = (Ok (), s1, t1) ∧
    on_click_create host_ok s1 = (Ok (), s2, t2) ∧
    filter (λ kv, in_subtree target kv.1 = true) (stage s2) = fresh_plane.
Proof.
  pose (out1 := on_click_create host_ok state_fresh).
  pose (out2 := on_click_create host_ok out1.1.2).
  assert (E1 : on_click_create host_ok state_fresh
               = (Ok (), out1.1.2, out1.2)) by (vm_compute; reflexivity).
  assert (E2 : on_click_create host_ok out1.1.2
               = (Ok (), out2.1.2, out2.2)) by (vm_compute; reflexivity).
  exists out1.1.2, out1.2, out2.1.2, out2.2. split; [exact E1|].
  split; [exact E2|].
  destruct (second_click_rebuilds host_ok _ _ _ _ _ E1 E2) as (_ & _ & F & _).
  destruct F as [_ F]; [reflexivity|]. exact F.
Defined.

(** C9 holds of a run: the image file is missing, the removal call works. *)
Lemma failed_upload_propagates_witness :
  ∃ e s' t,
    on_click_create host_open_raises state_holding = (Raise e, s', t) ∧
    _texture (ext s') = None.
Proof.
  pose (out := on_click_create host_open_raises state_holding).
  assert (E : on_click_create host_open_raises state_holding
              = (out.1.1, out.1.2, out.2)) by (vm_compute; reflexivity).
  destruct (failed_upload_propagates host_open_raises state_holding _ _ _
              (ImageOpen "/exts/omni/dynamic_texture_example/cat.jpg" "r") E)
    as (e & R & _ & T).
  - vm_compute; reflexivity.
  - reflexivity.
  - exists e, out.1.2, out.2. split; [|exact T]. by rewrite <-R.
Defined.

(** C9 as the specification has it fails: when the removal call raises and
    the image file is missing, the exception of the image load reaches the
    caller and the extension still holds the handle of the earlier click. *)
Lemma failed_click_keeps_old_handle :
  ∃ e s' t,
    on_click_create host_remove_and_open_raise state_holding
      = (Raise e, s', t) ∧
    last t = Some (Host (ImageOpen
                           "/exts/omni/dynamic_texture_example/cat.jpg" "r")) ∧
    _texture (ext s') = Some old_texture ∧
    _texture (ext s') ≠ None.
Proof.
  eexists _, _, _. split; [vm_compute; reflexivity|]. by vm_compute.
Qed.

(** C10 holds of a run. *)
Lemma click_defines_root_first_witness :
  ∃ s' t,
    on_click_create host_ok state_fresh = (Ok (), s', t) ∧
    type_of (stage s') target = Some "Xform" ∧
    kind_of (stage s') target = Some "component" ∧
    type_of (stage s') target_mesh = Some "Mesh" ∧
    type_of (stage s') target_material = Some "Material" ∧
    type_of (stage s') target_shader = Some "Shader".
Proof.
  pose (out := on_click_create host_ok state_fresh).
  assert (E : on_click_create host_ok state_fresh = (Ok (), out.1.2, out.2))
    by (vm_compute; reflexivity).
  exists out.1.2, out.2. split; [exact E|].
  destruct (click_defines_root_first host_ok state_fresh _ _ _ E) as [_ T].
  - vm_compute. do 6 right. left.
  - by apply T.
Defined.

(** [create_dynamic_texture] on a buffer of three bytes declared as a 2 x 2
    RGBA image: the host is handed exactly that. *)
Example upload_of_mismatched_buffer :
  create_dynamic_texture host_ok "Thing" [x01; x02; x03] (2, 2) RGBA8_UNORM
    state_fresh
  = (Ok {| dtp_name := "Thing";
           dtp_data := Some ([1; 2; 3], [2; 2], RGBA8_UNORM) |},
     state_fresh,
     [Host (NewDynamicTextureProvider "Thing");
      Host (SetBytesData "Thing" [1; 2; 3] [2; 2] RGBA8_UNORM)]).
Proof. reflexivity. Qed.

(** * Further properties of the functions *)

(** ** Strings, frames and prefixes *)






Section Outcomes.

Context (host : HostEnv).

Lemma exec_calls_prefix (cs : list Call) (st st' : Stage) (r : option Exn)
    (t : list Call) :
  exec_calls host cs st = (r, st', t) -> t `prefix_of` cs.
Proof.
  destruct r as [e|]; intros E.
  - apply exec_calls_Some in E as (pre & c & post & -> & -> & _).
    exists post. by rewrite (cons_middle c), app_assoc.
  - by apply exec_calls_None in E as [-> _].
Qed.


(** How [create_textured_plane_prim] can end. *)
Lemma create_textured_plane_prim_inv (prim_path texture_name : string)
    (s s' : State) (r : Result string) (t : list Event) :
  create_textured_plane_prim host prim_path texture_name s = (r, s', t) ->
  ∃ oe t',
    exec_calls host (plane_calls prim_path texture_name) (stage s)
      = (oe, stage s', t') ∧
    r = match oe with
        | None => Ok (prim_path +:+ "/Mesh")
        | Some e => Raise e
        end ∧
    ext s' = ext s ∧ t = Host <$> t'.
Proof.
  rewrite create_textured_plane_prim_exec. unfold exec_then.
  unfold mret, M_ret, ret.
  destruct (exec_calls host _ _) as [[[e|] st] t'] eqn:E;
    rewrite ?app_nil_r; intros [= <- <- <-];
    [by exists (Some e), t' | by exists None, t'].
Qed.

End Outcomes.

Section Builder.

Context (host : HostEnv).

(** X1.  [create_textured_plane_prim] has no error handling and no state of
    its own: however it ends, the extension's fields are as before and the
    host calls made are an initial part of its eighteen calls; when it
    returns, it made them all and returns the mesh at [path/Mesh]; when it
    raises, the exception is the one the host raised for the last call
    made. *)
Theorem plane_builder_outcome (prim_path texture_name : string)
    (s s' : State) (r : Result string) (t : list Event) :
  create_textured_plane_prim host prim_path texture_name s = (r, s', t) ->
  ext s' = ext s ∧
  t `prefix_of` (Host <$> plane_calls prim_path texture_name) ∧
  match r with
  | Ok mesh =>
      mesh = prim_path +:+ "/Mesh" ∧
      t = Host <$> plane_calls prim_path texture_name
  | Raise e =>
      ∃ c, last t = Some (Host c) ∧ raises host (stage s') c = Some e
  end.
Proof.
  intros (oe & t' & E & -> & X & ->)%create_textured_plane_prim_inv.
  split; [done|]. split.
  { apply exec_calls_prefix in E as [k ->]. exists (Host <$> k).
    by rewrite fmap_app. }
  destruct oe as [e|].
  - apply exec_calls_Some in E as (pre & c & post & _ & -> & _ & R).
    exists c. by rewrite fmap_last, last_snoc.
  - by apply exec_calls_None in E as [-> _].
Qed.


(** What a completed build leaves at the mesh, whatever the path. *)
Lemma plane_mesh_at (prim_path texture_name : string) (st : Stage) :
  let st' := usd_steps (plane_calls prim_path texture_name) st in
  let mesh := prim_path +:+ "/Mesh" in
  attr_of st' mesh "points"
    = Some (VPoint3Array [(-430, -145, 0); (430, -145, 0);
                          (430, 145, 0); (-430, 145, 0)]) ∧
  attr_of st' mesh "faceVertexCounts" = Some (VIntArray [4]) ∧
  attr_of st' mesh "faceVertexIndices" = Some (VIntArray [0; 1; 2; 3]) ∧
  attr_of st' mesh "primvars:st"
    = Some (VTexCoord2Array [(0, 0); (1, 0); (1, 1); (0, 1)]) ∧
  attr_of st' mesh "extent"
    = Some (VPoint3Array [(-430, -145, 0); (430, 145, 0)]) ∧
  interpolation_of st' mesh "primvars:st" = Some "varying".
Proof.
  cbv zeta. unfold attr_of, interpolation_of. rewrite !usd_steps_lookup.
  unfold plane_calls. cbv zeta. rewrite !append_assoc.
  repeat split; prim_steps_eval; attr_eval; done.
Qed.

(** X3.  The mesh a completed build leaves at [path/Mesh], for every path,
    is well formed: its faces have at least three vertices, the face sizes
    add up to the number of vertex indices, every index names one of the
    points, there is one texture coordinate per point (the primvar is
    authored per vertex), and the extent is the bounding box of the
    points. *)
Theorem plane_mesh_well_formed (prim_path texture_name : string)
    (s s' : State) (r : string) (t : list Event) :
  create_textured_plane_prim host prim_path texture_name s = (Ok r, s', t) ->
  ∃ points counts indices uvs,
    attr_of (stage s') r "points" = Some (VPoint3Array points) ∧
    attr_of (stage s') r "faceVertexCounts" = Some (VIntArray counts) ∧
    attr_of (stage s') r "faceVertexIndices" = Some (VIntArray indices) ∧
    attr_of (stage s') r "primvars:st" = Some (VTexCoord2Array uvs) ∧
    interpolation_of (stage s') r "primvars:st" = Some "varying" ∧
    mesh_well_formed points counts indices uvs = true ∧
    attr_of (stage s') r "extent"
      = Some (VPoint3Array (bounding_box points)).
Proof.
  intros (oe & t' & E & R & _)%create_textured_plane_prim_inv.
  destruct oe as [e|]; [done|]. injection R as ->.
  apply exec_calls_None in E as [_ ->].
  destruct (plane_mesh_at prim_path texture_name (stage s))
    as (P & C & I & U & X & V).
  by eexists _, _, _, _.
Qed.

(** X4.  After a completed build the mesh is bound to the material: the
    prim at [path/Material] is a material, the mesh has the material-binding
    API applied, and its binding relationship targets exactly
    [path/Material]. *)
Theorem plane_material_bound (prim_path texture_name : string)
    (s s' : State) (r : string) (t : list Event) :
  create_textured_plane_prim host prim_path texture_name s = (Ok r, s', t) ->
  type_of (stage s') (prim_path +:+ "/Material") = Some "Material" ∧
  rel_of (stage s') r "material:binding" = Some [prim_path +:+ "/Material"] ∧
  ∃ apis, apis_of (stage s') r = Some apis ∧ "MaterialBindingAPI" ∈ apis.
Proof.
  intros (oe & t' & E & R & _)%create_textured_plane_prim_inv.
  destruct oe as [e|]; [done|]. injection R as ->.
  apply exec_calls_None in E as [_ ->].
  unfold type_of, rel_of, apis_of. rewrite !usd_steps_lookup.
  unfold plane_calls. cbv zeta. rewrite !append_assoc.
  split; [by prim_steps_eval|]. split.
  - prim_steps_eval. cbn [rels set_rel]. by rewrite lookup_insert_eq.
  - prim_steps_eval. eexists. split; [reflexivity|].
    cbn [apiSchemas set_rel add_api]. case_bool_decide; [done|].
    apply elem_of_app. right. by left.
Qed.

(** X5.  After a completed build the material's surface output is connected
    to the surface output of the shader at [path/Material/Shader], and that
    shader is the OmniPBR shader of the [OmniPBR.mdl] source asset. *)
Theorem plane_shader_network (prim_path texture_name : string)
    (s s' : State) (r : string) (t : list Event) :
  create_textured_plane_prim host prim_path texture_name s = (Ok r, s', t) ->
  let material := prim_path +:+ "/Material" in
  let shader := prim_path +:+ "/Material/Shader" in
  connection_of (stage s') material "outputs:surface"
    = Some (shader, "outputs:surface") ∧
  attr_of (stage s') shader "info:id" = Some (VToken "OmniPBR") ∧
  attr_of (stage s') shader "info:implementationSource"
    = Some (VToken "sourceAsset") ∧
  attr_of (stage s') shader "info:mdl:sourceAsset"
    = Some (VAsset "OmniPBR.mdl") ∧
  attr_of (stage s') shader "info:mdl:sourceAsset:subIdentifier"
    = Some (VToken "OmniPBR").
Proof.
  intros (oe & t' & E & R & _)%create_textured_plane_prim_inv.
  destruct oe as [e|]; [done|]. clear R.
  apply exec_calls_None in E as [_ ->].
  cbv zeta. unfold connection_of, attr_of. rewrite !usd_steps_lookup.
  unfold plane_calls. cbv zeta. rewrite !append_assoc.
  change ("/Material" +:+ "/Shader") with "/Material/Shader".
  split.
  { prim_steps_eval. rewrite attrs_edit_attr. eval_eqb. done. }
  repeat split; prim_steps_eval; attr_eval; done.
Qed.


End Builder.

Section Lifecycle.

Context (host : HostEnv).

(** X7.  [on_startup] never returns: it stores [None] as the texture handle
    and asks the host for the window, and then, the window stored, raises
    [UnboundLocalError] on reading [on_click_create], whose [def] comes
    after the use; the button is not created.  The document is not
    touched. *)
Theorem on_startup_never_returns (ext_id : string) (s : State) :
  let new_window :=
    NewWindow "Create Dynamic Texture Provider Example" 300 300 in
  ∃ e s' t,
    on_startup host ext_id s = (Raise e, s', t) ∧
    _texture (ext s') = None ∧
    stage s' = stage s ∧
    (raises host (stage s) new_window = None ->
     e = UnboundLocalError "on_click_create" ∧
     _window (ext s') =
       Some {| win_title := "Create Dynamic Texture Provider Example";
               win_width := 300; win_height := 300 |} ∧
     t = [StoreTexture None; Host new_window]).
Proof.
  cbv zeta.
  unfold on_startup, mbind, M_bind, bind, store_texture, store_window, call,
    raise. cbn [stage ext].
  destruct (raises host (stage s) _) as [e|]; cbn; by eexists _, _, _.
Qed.

(** The calls of a click outside its removal step remove nothing. *)
Lemma click_calls_no_removal :
  Forall (λ c, c ≠ RemovePrim target)
    (click_head ++ click_build ++ click_upload host).
Proof.
  unfold click_head, click_build, click_root, click_upload, plane_calls.
  cbv zeta. cbn [app]. by repeat constructor.
Qed.



Lemma after_removal_outside (s : State) (k : string) :
  in_subtree target k = false ->
  stage (after_removal host s) !! k = stage s !! k.
Proof.
  intros K. unfold after_removal.
  destruct (removal_returns host (stage s)); [|done].
  cbn [stage]. rewrite usd_step_lookup. unfold prim_step. by rewrite K.
Qed.

Lemma after_removal_inside (s : State) (k : string) :
  removal_returns host (stage s) = true ->
  in_subtree target k = true ->
  stage (after_removal host s) !! k = None.
Proof.
  intros R K. unfold after_removal. rewrite R. cbn [stage].
  rewrite usd_step_lookup. unfold prim_step. by rewrite K.
Qed.

(** The document a completed click leaves when its removal call returned:
    the freshly built plane under the target, the old entries elsewhere. *)
Lemma click_document_lookup (s s' : State) (t : list Event) (k : string) :
  on_click_create host s = (Ok (), s', t) ->
  removal_returns host (stage s) = true ->
  stage s' !! k =
    if in_subtree target k then fresh_plane !! k else stage s !! k.
Proof.
  intros [(e & t1 & _ & [=] & _) | [(e & t3 & _ & _ & [=] & _)
    | (_ & _ & St & _)]]%on_click_create_cases R.
  rewrite St, usd_steps_lookup. unfold fresh_plane.
  rewrite usd_steps_lookup, lookup_empty.
  destruct (in_subtree target k) eqn:K.
  - by rewrite after_removal_inside.
  - rewrite (prim_steps_outside target)
      by (done || apply click_build_under_target).
    by apply after_removal_outside.
Qed.

(** X8.  However a click ends, the events it leaves are an initial part of
    the events of a completed click, and the window field of the extension
    is as before. *)
Theorem click_trace_prefix (s s' : State) (r : Result ()) (t : list Event) :
  on_click_create host s = (r, s', t) ->
  t `prefix_of` click_trace host (removal_returns host (stage s)) ∧
  _window (ext s') = _window (ext s).
Proof.
  assert (Hw : _window (ext (after_removal host s)) = _window (ext s)).
  { unfold after_removal. by destruct (removal_returns host (stage s)). }
  unfold click_trace.
  intros [(e & t1 & E1 & _ & X & ->) | [(e & t3 & _ & E3 & _ & X & ->)
    | (_ & _ & _ & _ & X & ->)]]%on_click_create_cases.
  - split; [|by rewrite X].
    apply exec_calls_prefix in E1 as [k1 ->]. rewrite fmap_app, <-app_assoc.
    by eexists.
  - split; [|by rewrite X].
    apply exec_calls_prefix in E3 as [k3 ->].
    apply prefix_app, prefix_app. rewrite fmap_app, <-app_assoc. by eexists.
  - split; [done|]. by rewrite X.
Qed.


(** X10.  The bare [except] of the handler swallows the exception of the
    removal call and no other: when a click raises, the exception is the
    one the host raised for the last call made, and that call is not the
    removal. *)
Theorem click_exception_source (s s' : State) (e : Exn) (t : list Event) :
  on_click_create host s = (Raise e, s', t) ->
  ∃ c, last t = Some (Host c) ∧ raises host (stage s') c = Some e ∧
       c ≠ RemovePrim target.
Proof.
  pose proof click_calls_no_removal as N. apply Forall_app in N as [N1 N2].
  intros [(e' & t1 & E1 & [= <-] & _ & ->) | [(e' & t3 & _ & E3 & [= <-] & _ & ->)
    | (_ & _ & _ & [=] & _)]]%on_click_create_cases.
  - apply exec_calls_Some in E1 as (pre & c & post & Hcs & -> & _ & R).
    exists c. rewrite fmap_last, last_snoc. repeat split; [done|].
    rewrite Hcs in N1. apply Forall_app in N1 as [_ N1].
    by apply Forall_cons in N1 as [N1 _].
  - apply exec_calls_Some in E3 as (pre & c & post & Hcs & -> & _ & R).
    exists c. rewrite !app_assoc, fmap_app. cbn [fmap list_fmap].
    rewrite !app_assoc, last_snoc. repeat split; [done|].
    rewrite Hcs in N2. apply Forall_app in N2 as [_ N2].
    by apply Forall_cons in N2 as [N2 _].
Qed.


(** X12.  Clicking is idempotent: a second completed click leaves the
    extension and the document exactly as the first left them, and makes
    the same calls, when the removal call returned in both. *)
Theorem click_idempotent (s0 s1 s2 : State) (t1 t2 : list Event) :
  on_click_create host s0 = (Ok (), s1, t1) ->
  on_click_create host s1 = (Ok (), s2, t2) ->
  removal_returns host (stage s0) = true ->
  removal_returns host (stage s1) = true ->
  s2 = s1 ∧ t2 = t1.
Proof.
  intros E1 E2 R1 R2.
  assert (St : stage s2 = stage s1).
  { apply map_eq. intros k.
    rewrite (click_document_lookup _ _ _ _ E2 R2),
      (click_document_lookup _ _ _ _ E1 R1).
    by destruct (in_subtree target k). }
  apply on_click_create_cases in E1
    as [(e & t & _ & [=] & _) | [(e & t & _ & _ & [=] & _)
    | (_ & _ & _ & _ & X1 & ->)]].
  apply on_click_create_cases in E2
    as [(e & t & _ & [=] & _) | [(e & t & _ & _ & [=] & _)
    | (_ & _ & _ & _ & X2 & ->)]].
  split; [|by rewrite R1, R2].
  destruct s1 as [x1 st1], s2 as [x2 st2]. cbn [ext stage] in X1, X2, St.
  rewrite X2, St, X1. reflexivity.
Qed.

End Lifecycle.

(** ** Runs that satisfy the hypotheses of the further properties *)

(** X1 holds of a run: the host refuses the material, the build stops
    there. *)
Lemma plane_builder_outcome_witness :
  ∃ s' t,
    create_textured_plane_prim host_material_raises "/World/Thing" "Thing"
      state_holding = (Raise (HostError "Material.Define"), s', t) ∧
    ext s' = ext state_holding ∧
    last t = Some (Host (Define "Material" "/World/Thing/Material")).
Proof.
  pose (out := create_textured_plane_prim host_material_raises
                 "/World/Thing" "Thing" state_holding).
  assert (E : create_textured_plane_prim host_material_raises
                "/World/Thing" "Thing" state_holding
              = (Raise (HostError "Material.Define"), out.1.2, out.2))
    by (vm_compute; reflexivity).
  exists out.1.2, out.2. split; [exact E|].
  split; [|vm_compute; reflexivity].
  exact (proj1 (plane_builder_outcome host_material_raises _ _ _ _ _ _ E)).
Defined.


(** X3 holds of a run. *)
Lemma plane_mesh_well_formed_witness :
  ∃ s' t points,
    create_textured_plane_prim host_ok "/World/Thing" "Thing" state_fresh
      = (Ok "/World/Thing/Mesh", s', t) ∧
    attr_of (stage s') "/World/Thing/Mesh" "extent"
      = Some (VPoint3Array (bounding_box points)).
Proof.
  pose (out := create_textured_plane_prim host_ok "/World/Thing" "Thing"
                 state_fresh).
  assert (E : create_textured_plane_prim host_ok "/World/Thing" "Thing"
                state_fresh = (Ok "/World/Thing/Mesh", out.1.2, out.2))
    by (vm_compute; reflexivity).
  destruct (plane_mesh_well_formed host_ok _ _ _ _ _ _ E)
    as (points & counts & indices & uvs & _ & _ & _ & _ & _ & _ & X).
  exists out.1.2, out.2, points. split; [exact E | exact X].
Defined.

(** X4 holds of a run. *)
Lemma plane_material_bound_witness :
  ∃ s' t,
    create_textured_plane_prim host_ok "/World/Thing" "Thing" state_fresh
      = (Ok "/World/Thing/Mesh", s', t) ∧
    rel_of (stage s') "/World/Thing/Mesh" "material:binding"
      = Some ["/World/Thing/Material"].
Proof.
  pose (out := create_textured_plane_prim host_ok "/World/Thing" "Thing"
                 state_fresh).
  assert (E : create_textured_plane_prim host_ok "/World/Thing" "Thing"
                state_fresh = (Ok "/World/Thing/Mesh", out.1.2, out.2))
    by (vm_compute; reflexivity).
  exists out.1.2, out.2. split; [exact E|].
  exact (proj1 (proj2 (plane_material_bound host_ok _ _ _ _ _ _ E))).
Defined.

(** X5 holds of a run. *)
Lemma plane_shader_network_witness :
  ∃ s' t,
    create_textured_plane_prim host_ok "/World/Thing" "Thing" state_fresh
      = (Ok "/World/Thing/Mesh", s', t) ∧
    connection_of (stage s') "/World/Thing/Material" "outputs:surface"
      = Some ("/World/Thing/Material/Shader", "outputs:surface").
Proof.
  pose (out := create_textured_plane_prim host_ok "/World/Thing" "Thing"
                 state_fresh).
  assert (E : create_textured_plane_prim host_ok "/World/Thing" "Thing"
                state_fresh = (Ok "/World/Thing/Mesh", out.1.2, out.2))
    by (vm_compute; reflexivity).
  exists out.1.2, out.2. split; [exact E|].
  exact (proj1 (plane_shader_network host_ok _ _ _ _ _ _ E)).
Defined.


(** X7 holds of a run: the host creates the window. *)
Lemma on_startup_never_returns_witness :
  ∃ s' t,
    on_startup host_ok "omni.dynamic_texture_example" state_fresh
      = (Raise (UnboundLocalError "on_click_create"), s', t).
Proof.
  destruct (on_startup_never_returns host_ok "omni.dynamic_texture_example"
              state_fresh) as (e & s' & t & E & _ & _ & W).
  destruct W as (-> & _); [reflexivity|]. exists s', t. exact E.
Defined.

(** X8 holds of a run: the image file is missing. *)
Lemma click_trace_prefix_witness :
  ∃ r s' t,
    on_click_create host_open_raises state_holding = (r, s', t) ∧
    t `prefix_of` click_trace host_open_raises true.
Proof.
  pose (out := on_click_create host_open_raises state_holding).
  assert (E : on_click_create host_open_raises state_holding
              = (out.1.1, out.1.2, out.2)) by (vm_compute; reflexivity).
  exists out.1.1, out.1.2, out.2. split; [exact E|].
  exact (proj1 (click_trace_prefix host_open_raises _ _ _ _ E)).
Defined.


(** X10 holds of a run: the image file is missing. *)
Lemma click_exception_source_witness :
  ∃ s' t c,
    on_click_create host_open_raises state_holding
      = (Raise (HostError "FileNotFoundError"), s', t) ∧
    last t = Some (Host c) ∧ c ≠ RemovePrim target.
Proof.
  pose (out := on_click_create host_open_raises state_holding).
  assert (E : on_click_create host_open_raises state_holding
              = (Raise (HostError "FileNotFoundError"), out.1.2, out.2))
    by (vm_compute; reflexivity).
  destruct (click_exception_source host_open_raises _ _ _ _ E)
    as (c & L & _ & N).
  exists out.1.2, out.2, c. split; [exact E|]. split; [exact L | exact N].
Defined.


(** X12 holds of a run: two clicks on a scene. *)
Lemma click_idempotent_witness :
  ∃ s1 t1,
    on_click_create host_ok state_with_scene = (Ok (), s1, t1) ∧
    on_click_create host_ok s1 = (Ok (), s1, t1).
Proof.
  pose (out1 := on_click_create host_ok state_with_scene).
  pose (out2 := on_click_create host_ok out1.1.2).
  assert (E1 : on_click_create host_ok state_with_scene
               = (Ok (), out1.1.2, out1.2)) by (vm_compute; reflexivity).
  assert (E2 : on_click_create host_ok out1.1.2
               = (Ok (), out2.1.2, out2.2)) by (vm_compute; reflexivity).
  exists out1.1.2, out1.2. split; [exact E1|].
  destruct (click_idempotent host_ok _ _ _ _ _ E1 E2) as [S T];
    [reflexivity..|].
  exact (eq_trans E2 (f_equal2 (λ a b, (Ok (), a, b)) S T)).
Defined.
